(** * Ribbons and badges scraper: a shallow embedding

    The program of [scripts/ribbons and badges scraper.py] fetches two HTML
    pages, walks the parsed trees and builds flat records
    [{name; image_url; description}].  This file embeds

    - the Python [str] methods the script calls ([strip], [startswith],
      [replace], [split], [join], [in]),
    - the part of the BeautifulSoup tree interface it uses ([find],
      [find_all], [find_next_sibling], [get_text], attribute lookup, tag
      equality),
    - the two extractors, with their [try]/[except] blocks, in a state and
      exception monad,
    - [json.dumps] with [indent=4], and the driver under [__main__],

    and then states the properties of the specification over them.

    Text is modelled by [string]: characters are the code points below 256.
    A parsed page is the input of the model; the parser itself is not
    embedded. *)

From Stdlib Require Import Ascii String NArith Lia.
From stdpp Require Import base option list strings gmap.

(** ** Python strings *)

Module Str.

(** [str.isspace] on a single code point below 256. *)
Definition isspace (c : ascii) : bool :=
  let n := N_of_ascii c in
  ((9 <=? n) && (n <=? 13) || (28 <=? n) && (n <=? 32)
   || (n =? 133) || (n =? 160))%N.

(** [s.lstrip()] *)
Fixpoint lstrip (s : string) : string :=
  match s with
  | String c r => if isspace c then lstrip r else s
  | EmptyString => EmptyString
  end.

(** [s.rstrip()] *)
Fixpoint rstrip (s : string) : string :=
  match s with
  | String c r =>
      match rstrip r with
      | EmptyString => if isspace c then EmptyString else String c EmptyString
      | r' => String c r'
      end
  | EmptyString => EmptyString
  end.

(** [s.strip()] *)
Definition strip (s : string) : string := lstrip (rstrip s).

(** [s.startswith(p)] *)
Definition startswith (s p : string) : bool := String.prefix p s.

(** [s.find(sub)]: index of the first occurrence, [None] for Python's -1. *)
Fixpoint find (s sub : string) : option nat :=
  if String.prefix sub s then Some 0
  else match s with
       | String _ r => S <$> find r sub
       | EmptyString => None
       end.

(** [sub in s] *)
Definition contains (s sub : string) : bool :=
  match find s sub with Some _ => true | None => false end.

Fixpoint take (n : nat) (s : string) : string :=
  match n, s with
  | S n', String c r => String c (take n' r)
  | _, _ => EmptyString
  end.

Fixpoint drop (n : nat) (s : string) : string :=
  match n, s with
  | S n', String _ r => drop n' r
  | _, _ => s
  end.

(** [s.replace(old, new, count)] for an empty [old]: [new] goes in front of
    the first [count] characters and, when the count is not used up, at the
    end. *)
Fixpoint interleave (new : string) (count : nat) (s : string) : string :=
  match count with
  | 0 => s
  | S n =>
      new +:+ match s with
             | String c r => String c (interleave new n r)
             | EmptyString => EmptyString
             end
  end.

(** [s.replace(old, new, count)] for a non-empty [old]: the occurrences are
    taken from the left and do not overlap. *)
Fixpoint replace_count (old new : string) (count : nat) (s : string) : string :=
  match count with
  | 0 => s
  | S n =>
      match find s old with
      | Some i =>
          take i s +:+ new
            +:+ replace_count old new n (drop (i + String.length old) s)
      | None => s
      end
  end.

(** [s.replace(old, new)] and [s.replace(old, new, count)].  Without a
    count every occurrence is replaced; a string of length [n] holds at most
    [n] occurrences of a non-empty [old] (see [replace_count_enough]), and
    [n + 1] places for an empty one. *)
Definition replace (s old new : string) (count : option nat) : string :=
  match old with
  | EmptyString =>
      interleave new (default (S (String.length s)) count) s
  | _ => replace_count old new (default (String.length s) count) s
  end.

(** [s.split(sep, 1)] for a non-empty [sep]. *)
Definition split1 (s sep : string) : list string :=
  match find s sep with
  | Some i => [take i s; drop (i + String.length sep) s]
  | None => [s]
  end.

(** [s.split()]: the maximal runs of non-whitespace characters.  [cur] is
    the run being read. *)
Fixpoint split_go (cur : option string) (s : string) : list string :=
  match s with
  | String c r =>
      if isspace c then option_list cur ++ split_go None r
      else split_go (Some (default EmptyString cur +:+ String c EmptyString)) r
  | EmptyString => option_list cur
  end.

Definition split (s : string) : list string := split_go None s.

(** [sep.join(l)] *)
Definition join (sep : string) (l : list string) : string :=
  String.concat sep l.

Definition nonempty (s : string) : bool :=
  match s with EmptyString => false | _ => true end.

End Str.

(** ** The parsed page *)

(** A node of the tree BeautifulSoup builds: a piece of text
    ([NavigableString]) or a tag with its attribute dictionary and its
    contents.  The [class] attribute, which BeautifulSoup holds as the list of
    its tokens, is kept here as the text of the attribute and split on use. *)
#[warnings="-register-all"] Inductive node : Type :=
| Text (s : string)
| Tag (name : string) (attrs : gmap string string) (contents : list node).

(** A node at its place in the tree: [find] and [find_all] return tags that
    still know their later siblings, which [find_next_sibling] walks. *)
Record element : Type := Element { here : node; next_siblings : list node }.

(** The criteria of a [find]/[find_all] call besides the tag name:
    [id='x'] is [AttrIs "id" "x"], [id=True] is [AttrPresent "id"] and
    [class_='c'] is [HasClass "c"]. *)
Inductive attr_test : Type :=
| AttrIs (key value : string)
| AttrPresent (key : string)
| HasClass (c : string).

Module Soup.

Definition tag_name (n : node) : option string :=
  match n with Tag nm _ _ => Some nm | Text _ => None end.

(** [tag.name == nm] *)
Definition named (nm : string) (n : node) : bool :=
  bool_decide (tag_name n = Some nm).

(** [key in tag.attrs] and [tag[key]] *)
Definition attr (key : string) (n : node) : option string :=
  match n with Tag _ a _ => a !! key | Text _ => None end.

(** [Tag.__eq__]: same name, same attributes, same contents, recursively. *)
Fixpoint node_eqb (a b : node) : bool :=
  match a, b with
  | Text s, Text t => bool_decide (s = t)
  | Tag n1 a1 c1, Tag n2 a2 c2 =>
      bool_decide (n1 = n2) && bool_decide (a1 = a2)
      && (fix all2 (l1 l2 : list node) : bool :=
            match l1, l2 with
            | [], [] => true
            | x :: l1', y :: l2' => node_eqb x y && all2 l1' l2'
            | _, _ => false
            end) c1 c2
  | _, _ => false
  end.

(** [tag.descendants]: every node below the tag, in document order. *)
Fixpoint descendants (n : node) : list element :=
  match n with
  | Text _ => []
  | Tag _ _ cs =>
      (fix children (l : list node) : list element :=
         match l with
         | [] => []
         | c :: l' => Element c l' :: descendants c ++ children l'
         end) cs
  end.

(** A class criterion matches one of the tokens of the class attribute, or
    the tokens joined by single spaces. *)
Definition test_holds (n : node) (t : attr_test) : bool :=
  match t with
  | AttrIs k v => bool_decide (attr k n = Some v)
  | AttrPresent k => bool_decide (is_Some (attr k n))
  | HasClass c =>
      match attr "class" n with
      | Some v =>
          let tokens := Str.split v in
          existsb (fun t => bool_decide (t = c)) tokens
          || bool_decide (Str.join " " tokens = c)
      | None => false
      end
  end.

Definition matches (nm : string) (tests : list attr_test) (n : node) : bool :=
  named nm n && forallb (test_holds n) tests.

(** [tag.find_all(nm, ...)] *)
Definition find_all (nm : string) (tests : list attr_test) (n : node)
  : list element :=
  List.filter (fun e => matches nm tests (here e)) (descendants n).

(** [tag.find(nm, ...)]: the first match, or [None]. *)
Definition find (nm : string) (tests : list attr_test) (n : node)
  : option element :=
  head (find_all nm tests n).

(** [tag.find_next_sibling()] and [tag.find_next_sibling(nm)]: the first
    later sibling that is a tag (of that name). *)
Fixpoint first_tag (nm : option string) (l : list node) : option element :=
  match l with
  | [] => None
  | n :: l' =>
      match n with
      | Tag x _ _ =>
          if from_option (fun want => bool_decide (x = want)) true nm
          then Some (Element n l') else first_tag nm l'
      | Text _ => first_tag nm l'
      end
  end.

Definition find_next_sibling (nm : option string) (e : element)
  : option element :=
  first_tag nm (next_siblings e).

(** The strings below a node, in document order. *)
Fixpoint strings (n : node) : list string :=
  match n with
  | Text s => [s]
  | Tag _ _ cs => flat_map strings cs
  end.

(** [_all_strings(strip=True)]: each string stripped, the empty ones
    dropped. *)
Definition stripped_strings (n : node) : list string :=
  List.filter Str.nonempty (map Str.strip (strings n)).

(** [tag.get_text(separator=sep, strip=...)] *)
Definition get_text (sep : string) (strip : bool) (n : node) : string :=
  Str.join sep (if strip then stripped_strings n else strings n).

End Soup.

(** ** Records, exceptions and effects *)

(** One scraped entry: the dictionary [{'name', 'image_url', 'description'}];
    [None] is Python's [None]. *)
Record item : Type :=
  Item { name : string; image_url : option string; description : string }.

(** The exceptions that matter to the handlers: [RequestException] has a
    handler of its own, everything else falls to [except Exception].  Each
    carries the text that [str(e)] prints. *)
Inductive exn : Type :=
| RequestException (msg : string)
| AttributeError (msg : string)
| OtherException (msg : string).

Inductive res (A : Type) : Type :=
| Val (a : A)
| Raise (e : exn).
Arguments Val {A} a.
Arguments Raise {A} e.

(** Computations over a state [S] that may raise: the state reached when an
    exception is raised is kept, as a Python list mutated before the raise. *)
Definition M (S A : Type) : Type := S → res A * S.

Global Instance M_ret {S} : MRet (M S) := λ A a s, (Val a, s).
Global Instance M_bind {S} : MBind (M S) := λ A B f m s,
  match m s with
  | (Val a, s') => f a s'
  | (Raise e, s') => (Raise e, s')
  end.

Definition raise {S A} (e : exn) : M S A := λ s, (Raise e, s).

(** [try: m except Exception as e: h e] *)
Definition try_except {S A} (m : M S A) (h : exn → M S A) : M S A := λ s,
  match m s with
  | (Val a, s') => (Val a, s')
  | (Raise e, s') => h e s'
  end.

(** [for x in l: body x] *)
Fixpoint for_each {S X} (l : list X) (body : X → M S unit) : M S unit :=
  match l with
  | [] => mret ()
  | x :: l' => body x ;; for_each l' body
  end.

(** What lines 19-21 and 83-85 give for a URL: the parsed page, or the
    exception raised by [requests.get], [raise_for_status] or the parser. *)
Inductive reply : Type :=
| Failed (e : exn)
| Page (soup : node).

(** The state of one extractor call: the list it appends to and the lines it
    has printed. *)
Record frame : Type := Frame { data : list item; printed : list string }.

Definition print (line : string) : M frame unit := λ fr,
  (Val (), Frame (data fr) (printed fr ++ [line])).

Definition append (r : item) : M frame unit := λ fr,
  (Val (), Frame (data fr ++ [r]) (printed fr)).

Definition request (net : string → reply) (url : string) : M frame node :=
  match net url with
  | Failed e => raise e
  | Page soup => mret soup
  end.

Definition message (e : exn) : string :=
  match e with
  | RequestException m | AttributeError m | OtherException m => m
  end.

(** A function body wrapped in the two handlers, then [return data]: the body
    gives [Some v] when it ran into a [return v] of its own. *)
Definition run_extractor (body : M frame (option (list item)))
    (on_request on_other : string → string) : res (list item) * list string :=
  let handled :=
    try_except body (λ e,
      match e with
      | RequestException m => print (on_request m)
      | _ => print (on_other (message e))
      end ;; mret None) in
  match handled (Frame [] []) with
  | (Val (Some early), fr) => (Val early, printed fr)
  | (Val None, fr) => (Val (data fr), printed fr)
  | (Raise e, fr) => (Raise e, printed fr)
  end.

(** ** The ribbon extractor *)

Definition ribbons_base : string := "https://www.serebii.net/games/".

(** Lines 41-48: the image of a ribbon row. *)
Definition ribbon_image_url (image_column : node) : option string :=
  match Soup.find "img" [] image_column with
  | Some img_tag =>
      match Soup.attr "src" (here img_tag) with
      | Some image_url =>
          if negb (Str.startswith image_url "http")
          then Some (ribbons_base +:+ image_url)
          else Some image_url
      | None => None
      end
  | None => None
  end.

(** Lines 36-60: the entry of a row with cells [columns[0..2]]. *)
Definition ribbon_item (image_column name_column description_column : node)
  : item :=
  {| name := Soup.get_text EmptyString true name_column;
     image_url := ribbon_image_url image_column;
     description := Soup.get_text " " true description_column |}.

(** Lines 34-60: the loop body.  [len(columns) >= 3] holds exactly when the
    list has the three cells the body then reads. *)
Definition ribbon_row (row : element) : M frame unit :=
  match Soup.find_all "td" [] (here row) with
  | image_column :: name_column :: description_column :: _ =>
      append (ribbon_item (here image_column) (here name_column)
                (here description_column))
  | _ => mret ()
  end.

(** [ribbon_table.find_all('tr')[1:]] *)
Definition ribbon_rows (ribbon_table : node) : list element :=
  drop 1 (Soup.find_all "tr" [] ribbon_table).

(** Lines 19-60, the body of the [try]. *)
Definition ribbons_body (net : string → reply) (url : string)
  : M frame (option (list item)) :=
  soup ← request net url;
  match Soup.find "table" [HasClass "dextable"] soup with
  | None =>
      print "Error: Could not find the ribbon table." ;;
      mret (Some [])
  | Some ribbon_table =>
      for_each (ribbon_rows (here ribbon_table)) ribbon_row ;;
      mret None
  end.

Definition scrape_pokemon_ribbons (net : string → reply) (url : string)
  : res (list item) * list string :=
  run_extractor (ribbons_body net url)
    (λ e, "Error making request to " +:+ url +:+ ": " +:+ e)
    (λ e, "An unexpected error occurred: " +:+ e).

(** ** The badge extractor *)

Definition badges_base : string := "https://pokemon.fandom.com".

Definition table_of (n : node) : list node :=
  if Soup.named "table" n then [n] else [].

Definition is_tag (n : node) : bool :=
  match n with Tag _ _ _ => true | Text _ => false end.

(** The later siblings [find_next_sibling()] can return, in order. *)
Definition later_tags (e : element) : list node :=
  List.filter is_tag (next_siblings e).

(** Lines 100-112.  [current] is [current_element] at the test of the outer
    [while], [rest] the tags after it; each [find_next_sibling()] takes the
    head of what is left, and [None] is the empty list.  The inner [sweep] is
    the [temp_element] loop of lines 108-111, which hands the heading it stops
    at back to the outer loop. *)
Fixpoint walk (anime_exclusive_heading current : node) (rest : list node)
    {struct rest} : list node :=
  if Soup.node_eqb current anime_exclusive_heading then []
  else
    table_of current ++
    match rest with
    | [] => []
    | next :: rest' =>
        if Soup.named "h3" next then
          (fix sweep (temp : list node) : list node :=
             match temp with
             | [] => []
             | temp_element :: temp' =>
                 if negb (Soup.named "h2" temp_element)
                    && negb (Soup.named "h3" temp_element)
                 then table_of temp_element ++ sweep temp'
                 else walk anime_exclusive_heading temp_element temp'
             end) rest'
        else walk anime_exclusive_heading next rest'
    end.

(** Lines 89-114: the tables whose rows are read. *)
Definition relevant_tables (soup : node) : list node :=
  let content_tables := Soup.find_all "table" [HasClass "prettytable"] soup in
  match Soup.find "h2" [AttrIs "id" "Anime_exclusive"] soup with
  | Some anime_exclusive_heading =>
      match Soup.find "h2" [AttrIs "id" "Indigo_League"] soup with
      | Some start_element =>
          walk (here anime_exclusive_heading) (here start_element)
            (later_tags start_element)
      | None => []
      end
  | None => here <$> content_tables
  end.

(** Lines 127-137: the image of a badge row. *)
Definition badge_image_url (image_column : node) : option string :=
  let image_url :=
    match Soup.find "img" [HasClass "mw-file-element"] image_column with
    | Some img_tag =>
        match Soup.attr "data-src" (here img_tag) with
        | Some v => Some v
        | None => Soup.attr "src" (here img_tag)
        end
    | None => None
    end in
  match image_url with
  | Some u =>
      if Str.nonempty u && negb (Str.startswith u "http")
      then Some (badges_base +:+ u) else Some u
  | None => None
  end.

(** Lines 140-150: the name of a badge row. *)
Definition badge_name (info_column : node) : string :=
  match Soup.find "b" [] info_column with
  | Some name_tag =>
      Str.replace (Soup.get_text EmptyString true (here name_tag))
        "The " EmptyString None
  | None =>
      match Soup.find "span" [AttrPresent "id"] info_column with
      | Some span_with_id =>
          Str.replace (Soup.get_text EmptyString true (here span_with_id))
            "The " EmptyString None
      | None => "Unnamed Badge"
      end
  end.

(** Lines 157-178: the description worked out of the text of the info cell. *)
Definition clean_description (badge_name full_info_text : string) : string :=
  let description :=
    if Str.nonempty badge_name
       && Str.startswith full_info_text ("The " +:+ badge_name)
    then Str.strip
           (Str.replace full_info_text ("The " +:+ badge_name) EmptyString (Some 1))
    else if Str.nonempty badge_name
    then Str.strip (Str.replace full_info_text badge_name EmptyString (Some 1))
    else full_info_text in
  let description :=
    if Str.startswith description "is given out at"
    then Str.strip (hd EmptyString (Str.split1 description "Abilities:"))
    else if Str.contains description "Abilities:"
    then Str.strip (hd EmptyString (Str.split1 description "Abilities:"))
    else description in
  Str.join " " (Str.split description).

Definition none_has_no_find_next_sibling : string :=
  "'NoneType' object has no attribute 'find_next_sibling'".

(** Lines 181-187: the description of a row named "Unnamed Badge".  [find]
    gives [None] for a page without the heading, and calling a method on
    [None] raises [AttributeError]. *)
Definition paldea_description (soup : node) (full_info_text : string)
  : M frame string :=
  match Soup.find "h2" [AttrIs "id" "Paldea_League"] soup with
  | Some heading =>
      match Soup.find_next_sibling (Some "p") heading with
      | Some paldea_desc_p =>
          mret (Soup.get_text EmptyString true (here paldea_desc_p))
      | None => mret full_info_text
      end
  | None => raise (AttributeError none_has_no_find_next_sibling)
  end.

(** Lines 121-193: the body of the loop over the rows of a table. *)
Definition badge_row (soup : node) (row : element) : M frame unit :=
  match Soup.find_all "td" [] (here row) with
  | image_column :: info_column :: _ =>
      let image_url := badge_image_url (here image_column) in
      let badge_name := badge_name (here info_column) in
      let full_info_text := Soup.get_text " " true (here info_column) in
      let description := clean_description badge_name full_info_text in
      description ←
        (if bool_decide (badge_name = "Unnamed Badge")
         then paldea_description soup full_info_text
         else mret description);
      append {| name := badge_name; image_url := image_url;
                description := description |}
  | _ => mret ()
  end.

(** Lines 118-120: the rows of a table after the first, if it has more than
    one. *)
Definition badge_rows (table : node) : list element :=
  let rows := Soup.find_all "tr" [] table in
  if bool_decide (1 < length rows) then drop 1 rows else [].

(** Lines 83-193, the body of the [try]. *)
Definition badges_body (net : string → reply) (url : string)
  : M frame (option (list item)) :=
  soup ← request net url;
  for_each (relevant_tables soup)
    (λ table, for_each (badge_rows table) (badge_row soup)) ;;
  mret None.

Definition scrape_gym_badges (net : string → reply) (url : string)
  : res (list item) * list string :=
  run_extractor (badges_body net url)
    (λ e, "Error making request to " +:+ url +:+ ": " +:+ e)
    (λ e, "An unexpected error occurred during scraping: " +:+ e).

(** ** [json.dumps] and the driver *)

Module Json.

Definition quote : ascii := ascii_of_nat 34.
Definition backslash : ascii := ascii_of_nat 92.
Definition newline : string := String (ascii_of_nat 10) EmptyString.

Definition hex_digit (n : N) : ascii :=
  ascii_of_N (if (n <? 10)%N then 48 + n else 87 + n).

(** ['\\u{0:04x}'.format(n)] for a code point below 256, the only ones a
    text has here: two of the four digits are always zero, and the escapes of
    higher code points and of surrogate pairs do not arise. *)
Definition u_escape (n : N) : string :=
  String backslash
    ("u00" +:+ String (hex_digit (n / 16)) (String (hex_digit (n mod 16)) EmptyString)).

(** The replacement of one character inside a JSON string: the short
    escapes, [\u00XX] for the other control characters and, under
    [ensure_ascii], for everything outside [' '..'~']. *)
Definition escape (ensure_ascii : bool) (c : ascii) : string :=
  let n := N_of_ascii c in
  let short (x : string) := String backslash x in
  if (n =? 34)%N then short (String quote EmptyString)
  else if (n =? 92)%N then short (String backslash EmptyString)
  else if (n =? 10)%N then short "n"
  else if (n =? 13)%N then short "r"
  else if (n =? 9)%N then short "t"
  else if (n =? 8)%N then short "b"
  else if (n =? 12)%N then short "f"
  else if (n <? 32)%N then u_escape n
  else if ensure_ascii && (126 <? n)%N then u_escape n
  else String c EmptyString.

Fixpoint escape_all (ensure_ascii : bool) (s : string) : string :=
  match s with
  | String c r => escape ensure_ascii c +:+ escape_all ensure_ascii r
  | EmptyString => EmptyString
  end.

Definition str (ensure_ascii : bool) (s : string) : string :=
  String quote (escape_all ensure_ascii s +:+ String quote EmptyString).

Definition key (k : string) : string :=
  String quote (k +:+ String quote ": ").

(** One dictionary at nesting level 1 of an [indent=4] dump. *)
Definition object (ensure_ascii : bool) (r : item) : string :=
  let field := newline +:+ "        " in
  "{" +:+ field +:+ key "name" +:+ str ensure_ascii (name r)
  +:+ "," +:+ field +:+ key "image_url"
  +:+ from_option (str ensure_ascii) "null" (image_url r)
  +:+ "," +:+ field +:+ key "description" +:+ str ensure_ascii (description r)
  +:+ newline +:+ "    }".

(** [json.dumps(l, indent=4, ensure_ascii=...)] for a list of entries. *)
Definition dumps (ensure_ascii : bool) (l : list item) : string :=
  match l with
  | [] => "[]"
  | _ =>
      "[" +:+ newline +:+ "    "
      +:+ String.concat ("," +:+ newline +:+ "    ") (map (object ensure_ascii) l)
      +:+ newline +:+ "]"
  end.

End Json.

(** What the driver acts on: the files of the working directory, by name, and
    the lines written to standard output. *)
Record world : Type := World { files : gmap string string; console : list string }.

(** Every character of [s] satisfies [p]. *)
Fixpoint all_chars (p : ascii → bool) (s : string) : bool :=
  match s with
  | String c r => p c && all_chars p r
  | EmptyString => true
  end.

(** A printable ASCII character or a line feed. *)
Definition plain (c : ascii) : bool :=
  let n := N_of_ascii c in ((32 <=? n) && (n <=? 126) || (n =? 10))%N.

(** Standard output encodes what it is given with the encoding of the
    terminal or pipe, with strict error handling.  Every such encoding has the
    ASCII characters; [encodes] says which of the others it has. *)
Definition printable (encodes : ascii → bool) (text : string) : bool :=
  all_chars (λ c, (N_of_ascii c <? 128)%N || encodes c) text.

Definition unicode_encode_error : exn :=
  OtherException "UnicodeEncodeError".

(** [print(line)] in the driver, outside any [try]: the text is encoded as a
    whole before anything is written, so a text with a character the encoding
    lacks raises [UnicodeEncodeError] and prints nothing. *)
Definition echo (encodes : ascii → bool) (line : string) : M world unit := λ w,
  if printable encodes line
  then (Val (), World (files w) (console w ++ [line]))
  else (Raise unicode_encode_error, w).

(** [with open(path, "w") as f: f.write(text)] *)
Definition write_file (path text : string) : M world unit := λ w,
  (Val (), World (<[path := text]> (files w)) (console w)).

(** A call of an extractor from the driver: its lines reach standard output,
    and an exception it let through would propagate.  The lines of an
    extractor are those of its handlers, fixed ASCII text around the URL and
    the text of the exception; writing them is taken to succeed. *)
Definition call {A} (r : res A * list string) : M world A := λ w,
  (r.1, World (files w) (console w ++ r.2)).

Definition gym_badges_url : string := "https://pokemon.fandom.com/wiki/List_of_Gym_Badges".
Definition ribbons_page_url : string := "https://www.serebii.net/games/ribbons.shtml".

(** Lines 202-229.  A non-empty list is what Python takes for true.  No
    statement of the driver is inside a [try]: an exception of a [print] ends
    the run at that line. *)
Definition main (encodes : ascii → bool) (net : string → reply)
  : M world unit :=
  all_gym_badges ← call (scrape_gym_badges net gym_badges_url);
  match all_gym_badges with
  | _ :: _ =>
      let json_output := Json.dumps false all_gym_badges in
      echo encodes json_output ;;
      write_file "pokemon_gym_badges.json" json_output ;;
      echo encodes
        (Json.newline +:+ "Gym badge data saved to pokemon_gym_badges.json")
  | [] => echo encodes "No gym badge data was scraped."
  end ;;
  all_ribbons ← call (scrape_pokemon_ribbons net ribbons_page_url);
  match all_ribbons with
  | _ :: _ =>
      let json_output := Json.dumps true all_ribbons in
      echo encodes json_output ;;
      write_file "pokemon_ribbons.json" json_output ;;
      echo encodes
        (Json.newline +:+ "Ribbon data saved to pokemon_ribbons.json")
  | [] => echo encodes "No ribbon data was scraped."
  end.

(** ** Notions the properties are stated with *)

(** What deleting every occurrence of [old] means, without a count: look for
    the first occurrence, drop it, go on behind it. *)
Inductive deletes_all (old : string) : string → string → Prop :=
| deletes_none s :
    Str.find s old = None → deletes_all old s s
| deletes_next s i r :
    Str.find s old = Some i →
    deletes_all old (Str.drop (i + String.length old) s) r →
    deletes_all old s (Str.take i s +:+ r).

(** The last character, and the strings that do not end in whitespace. *)
Fixpoint last_char (s : string) : option ascii :=
  match s with
  | String c r => match last_char r with None => Some c | x => x end
  | EmptyString => None
  end.

Definition ends_clean (s : string) : Prop :=
  match last_char s with Some c => Str.isspace c = false | None => True end.

(** The entry a ribbon row gives, if it has its three cells. *)
Definition ribbon_row_item (row : element) : option item :=
  match Soup.find_all "td" [] (here row) with
  | image_column :: name_column :: description_column :: _ =>
      Some (ribbon_item (here image_column) (here name_column)
              (here description_column))
  | _ => None
  end.

(** A row with the three cells the ribbon loop reads. *)
Definition full_row (row : element) : bool :=
  bool_decide (3 ≤ length (Soup.find_all "td" [] (here row))).

(** The text a badge name is made from: that of the bold element, else that of
    the first span with an id, else none. *)
Definition name_source (info_column : node) : option string :=
  match Soup.find "b" [] info_column with
  | Some name_tag => Some (Soup.get_text EmptyString true (here name_tag))
  | None =>
      match Soup.find "span" [AttrPresent "id"] info_column with
      | Some span_with_id =>
          Some (Soup.get_text EmptyString true (here span_with_id))
      | None => None
      end
  end.

(** A step that only appends entries satisfying [P], whether it ends normally
    or by an exception. *)
Definition appends (P : item → Prop) (fr fr' : frame) : Prop :=
  printed fr' = printed fr ∧ ∃ added, data fr' = data fr ++ added ∧ Forall P added.

(** An entry made from the cells of a row, and one made from a row of a table
    the badge extractor reads on a page. *)
Definition badge_of_row (row : element) (r : item) : Prop :=
  ∃ image_column info_column rest,
    Soup.find_all "td" [] (here row) = image_column :: info_column :: rest
    ∧ name r = badge_name (here info_column)
    ∧ image_url r = badge_image_url (here image_column).

Definition badge_of_page (soup : node) (r : item) : Prop :=
  ∃ table row,
    table ∈ relevant_tables soup ∧ row ∈ badge_rows table ∧ badge_of_row row r.

(** ** Sample pages *)

Definition th_row : node := Tag "tr" ∅ [Tag "th" ∅ [Text "Picture"]].

Definition img (src : string) : node := Tag "img" {[ "src" := src ]} [].

Definition ribbon_tr (src nm desc : string) : node :=
  Tag "tr" ∅ [Tag "td" ∅ [img src]; Tag "td" ∅ [Text nm]; Tag "td" ∅ [Text desc]].

Definition ribbons_table (rows : list node) : node :=
  Tag "table" {[ "class" := "dextable" ]} (th_row :: rows).

Definition ribbons_page (rows : list node) : node :=
  Tag "[document]" ∅ [ribbons_table rows].

Definition serve (badges ribbons : reply) : string → reply := λ url,
  if bool_decide (url = gym_badges_url) then badges else ribbons.

Definition badge_image_cell : node :=
  Tag "td" ∅ [Tag "img" {[ "class" := "mw-file-element"; "src" := "/b.png" ]} []].

Definition badge_tr (info : list node) : node :=
  Tag "tr" ∅ [badge_image_cell; Tag "td" ∅ info].

Definition badge_table (rows : list node) : node :=
  Tag "table" {[ "class" := "prettytable" ]} (th_row :: rows).

Definition h2 (id : string) : node := Tag "h2" {[ "id" := id ]} [].

Definition boulder_text : string :=
  "The Boulder Badge is given out at Pewter City Gym. Abilities: Use Strength.".

(** A page without the "Paldea League" heading whose second row has no name. *)
Definition page_without_paldea : node :=
  Tag "[document]" ∅
    [badge_table [badge_tr [Tag "b" ∅ [Text "A"]];
                  badge_tr [Text "Mystery"];
                  badge_tr [Tag "b" ∅ [Text "B"]]]].

(** A page with the anime heading and tables, but no "Indigo League". *)
Definition page_without_start : node :=
  Tag "[document]" ∅
    [h2 "Kanto"; badge_table [badge_tr [Tag "b" ∅ [Text "Boulder Badge"]]];
     h2 "Anime_exclusive"; badge_table [badge_tr [Tag "b" ∅ [Text "Anime"]]]].

Definition boulder_info : list node :=
  [Text "The "; Tag "b" ∅ [Text "Boulder Badge"];
   Text " is given out at Pewter City Gym. Abilities: Use Strength."].

Definition boulder_row : node := badge_tr boulder_info.

(** A ribbons page with one relative image and one row without a name. *)
Definition sample_rows : list node :=
  [ribbon_tr "/img/r1.png" "Champion Ribbon" "Won the league.";
   Tag "tr" ∅ [Tag "td" ∅ [Text "short row"]];
   ribbon_tr "http://x/y.png" " " "  Two  words "].

Definition sample_ribbons : node := ribbons_page sample_rows.

Definition sample_net : string → reply :=
  serve (Failed (RequestException "timed out")) (Page sample_ribbons).

Definition storm_cell : node := Tag "td" ∅ [Tag "b" ∅ [Text "The Eye of The Storm"]].

Definition badges_file : string := "pokemon_gym_badges.json".
Definition ribbons_file : string := "pokemon_ribbons.json".


(** A page with league headings, a table under a third-level heading and the
    anime heading. *)
Definition leagues_page : node :=
  Tag "[document]" ∅
    [badge_table [badge_tr [Tag "b" ∅ [Text "Before"]]];
     h2 "Indigo_League"; Text "intro";
     badge_table [badge_tr boulder_info];
     Tag "h3" ∅ [Text "Unova"]; Tag "p" ∅ [];
     badge_table [badge_tr [Tag "b" ∅ [Text "The Eye of The Storm"]; Text "Abilities: none"]];
     h2 "Paldea_League"; Tag "div" ∅ []; Tag "p" ∅ [Text " Paldea text "];
     badge_table [badge_tr [Text "Mystery"]];
     h2 "Anime_exclusive";
     badge_table [badge_tr [Tag "b" ∅ [Text "Anime"]]]].

(** ** Notions for the further properties *)

(** The part of a list before the first element that satisfies [p]. *)
Fixpoint before_first {X} (p : X → bool) (l : list X) : list X :=
  match l with
  | [] => []
  | x :: l' => if p x then [] else x :: before_first p l'
  end.

(** The rows the two loops of lines 116-120 visit, in order. *)
Definition rows_read (soup : node) : list element :=
  concat (badge_rows <$> relevant_tables soup).

(** The rows of the tables that are read, the first row of each table left
    out. *)
Definition rows_after_header (soup : node) : list element :=
  concat ((λ table, drop 1 (Soup.find_all "tr" [] table))
            <$> relevant_tables soup).

(** The image address of lines 128-137, from the attributes of the image
    alone: the [data-src] if the image has one, else the [src]; an empty
    value and one that starts with "http" as they are, any other behind the
    base. *)
Definition image_address (image_column : node) : option string :=
  match Soup.find "img" [HasClass "mw-file-element"] image_column with
  | Some img_tag =>
      (λ v, if bool_decide (v = EmptyString) || Str.startswith v "http"
            then v else "https://pokemon.fandom.com" +:+ v)
      <$> match Soup.attr "data-src" (here img_tag) with
          | Some v => Some v
          | None => Soup.attr "src" (here img_tag)
          end
  | None => None
  end.



(** Lines 183-187 on a page that has the heading. *)
Definition unnamed_description (heading : element) (full_info_text : string)
  : string :=
  match Soup.find_next_sibling (Some "p") heading with
  | Some paldea_desc_p => Soup.get_text EmptyString true (here paldea_desc_p)
  | None => full_info_text
  end.

(** The entry a badge row gives, if it has its two cells; [heading] is what
    [soup.find('h2', id='Paldea_League')] gave, and an unnamed row gives no
    entry without it. *)
Definition badge_row_item (heading : option element) (row : element)
  : option item :=
  match Soup.find_all "td" [] (here row) with
  | image_column :: info_column :: _ =>
      let nm := badge_name (here info_column) in
      let full_info_text := Soup.get_text " " true (here info_column) in
      if bool_decide (nm = "Unnamed Badge") then
        (λ h, Item nm (badge_image_url (here image_column))
                (unnamed_description h full_info_text)) <$> heading
      else Some (Item nm (badge_image_url (here image_column))
                   (clean_description nm full_info_text))
  | _ => None
  end.

(** A row with its two cells whose name is the placeholder. *)
Definition unnamed_row (row : element) : bool :=
  match Soup.find_all "td" [] (here row) with
  | _ :: info_column :: _ =>
      bool_decide (badge_name (here info_column) = "Unnamed Badge")
  | _ => false
  end.

Definition scraping_failed : string :=
  "An unexpected error occurred during scraping: "
  +:+ none_has_no_find_next_sibling.

(** The inner loop of lines 108-112, from [temp_element] on. *)
Definition sweep (anime_exclusive_heading : node) : list node → list node :=
  fix sweep (temp : list node) : list node :=
    match temp with
    | [] => []
    | temp_element :: temp' =>
        if negb (Soup.named "h2" temp_element)
           && negb (Soup.named "h3" temp_element)
        then table_of temp_element ++ sweep temp'
        else walk anime_exclusive_heading temp_element temp'
    end.

(** A page whose "Paldea League" heading is followed by text, a block and then
    the paragraph, and one without the heading whose first table ends with an
    unnamed row. *)
Definition paldea_table : node :=
  badge_table [badge_tr boulder_info; Tag "tr" ∅ [Tag "td" ∅ [Text "one cell"]];
               badge_tr [Text "Mystery"]].

Definition paldea_page : node :=
  Tag "[document]" ∅
    [paldea_table;
     h2 "Paldea_League"; Text "z"; Tag "div" ∅ []; Tag "p" ∅ [Text " Paldea text "]].

Definition cut_short_page : node :=
  Tag "[document]" ∅
    [badge_table [badge_tr boulder_info; badge_tr [Text "Mystery"]];
     badge_table [badge_tr [Tag "b" ∅ [Text "Late"]]]].

(** What the driver leaves in the file of an extractor and what it prints
    about its result. *)
Definition saved (path text : string) (l : list item)
    (fs : gmap string string) : gmap string string :=
  match l with [] => fs | _ :: _ => <[path := text]> fs end.

Definition reported (text saved_line empty_line : string) (l : list item)
  : list string :=
  match l with [] => [empty_line] | _ :: _ => [text; saved_line] end.

(** The lines of lines 211 and 227. *)
Definition badges_saved_line : string :=
  Json.newline +:+ "Gym badge data saved to pokemon_gym_badges.json".

Definition ribbons_saved_line : string :=
  Json.newline +:+ "Ribbon data saved to pokemon_ribbons.json".

(** Strings that do not start with whitespace, and those with no whitespace
    at either end. *)
Definition starts_clean (s : string) : Prop :=
  match s with String c _ => Str.isspace c = false | EmptyString => True end.

Definition trimmed (s : string) : Prop := starts_clean s ∧ ends_clean s.

(** A run of characters that are not whitespace, not empty. *)
Definition is_word (w : string) : Prop :=
  w ≠ EmptyString ∧ all_chars (λ c, negb (Str.isspace c)) w = true.

(** [sub] occurs in [s]. *)
Definition occurs (sub s : string) : Prop := ∃ a b, s = a +:+ sub +:+ b.

(** Lines 159-163: the text of the cell with the name taken off once. *)
Definition without_name (badge_name full_info_text : string) : string :=
  if Str.nonempty badge_name
     && Str.startswith full_info_text ("The " +:+ badge_name)
  then Str.strip
         (Str.replace full_info_text ("The " +:+ badge_name) EmptyString (Some 1))
  else if Str.nonempty badge_name
  then Str.strip (Str.replace full_info_text badge_name EmptyString (Some 1))
  else full_info_text.

(** A reader for one escaped character of a JSON string, used to show that
    the escaping of [Json.escape] can be undone. *)
Definition hex_value (c : ascii) : N :=
  let n := N_of_ascii c in if (n <? 58)%N then (n - 48)%N else (n - 87)%N.

Definition read_escaped (s : string) : option (ascii * string) :=
  match s with
  | String c r =>
      if bool_decide (c = Json.backslash) then
        match r with
        | String t r' =>
            let n := N_of_ascii t in
            if (n =? 117)%N then
              match r' with
              | String _ (String _ (String h (String l r''))) =>
                  Some (ascii_of_N (16 * hex_value h + hex_value l), r'')
              | _ => None
              end
            else if (n =? 110)%N then Some (ascii_of_nat 10, r')
            else if (n =? 114)%N then Some (ascii_of_nat 13, r')
            else if (n =? 116)%N then Some (ascii_of_nat 9, r')
            else if (n =? 98)%N then Some (ascii_of_nat 8, r')
            else if (n =? 102)%N then Some (ascii_of_nat 12, r')
            else Some (t, r')
        | EmptyString => None
        end
      else Some (c, r)
  | EmptyString => None
  end.


(** Whether the driver gets past the [print] of the badge dump. *)
Definition badges_printable (encodes : ascii → bool) (badges : list item)
  : bool :=
  match badges with
  | [] => true
  | _ :: _ => printable encodes (Json.dumps false badges)
  end.


Definition paldea_records : list item :=
  [Item "Boulder Badge" (Some "https://pokemon.fandom.com/b.png")
     "is given out at Pewter City Gym.";
   Item "Unnamed Badge" (Some "https://pokemon.fandom.com/b.png")
     "Paldea text"].

Definition paldea_heading : element :=
  Element (h2 "Paldea_League")
    [Text "z"; Tag "div" ∅ []; Tag "p" ∅ [Text " Paldea text "]].

(** * Properties *)

(** ** The methods on sample inputs *)

Example strip_ex : Str.strip "  a b  " = "a b".
Proof. reflexivity. Qed.

Example replace_ex1 : Str.replace "The Badge of The Sea" "The " EmptyString None = "Badge of Sea".
Proof. reflexivity. Qed.

Example replace_ex2 : Str.replace "abc" EmptyString "-" (Some 2) = "-a-bc".
Proof. reflexivity. Qed.

Example replace_ex3 : Str.replace "abc" EmptyString "-" None = "-a-b-c-".
Proof. reflexivity. Qed.

Example replace_ex4 : Str.replace "aaaa" "aa" "b" (Some 1) = "baa".
Proof. reflexivity. Qed.

Example split_ex : Str.join " " (Str.split "  a   b c ") = "a b c".
Proof. reflexivity. Qed.

Example split1_ex : Str.split1 "x Abilities: y Abilities: z" "Abilities:" = ["x "; " y Abilities: z"].
Proof. reflexivity. Qed.

Example get_text_ex :
  Soup.get_text " " true (Tag "td" ∅ [Tag "b" ∅ [Text " The Boulder Badge "]; Text "  "; Text " is  given"])
  = "The Boulder Badge is  given".
Proof. reflexivity. Qed.

Example find_ex :
  Soup.find "h2" [AttrIs "id" "x"]
    (Tag "div" ∅ [Tag "h2" ∅ []; Tag "h2" {[ "id" := "x" ]} []; Text "t"; Tag "p" ∅ []])
  = Some (Element (Tag "h2" {[ "id" := "x" ]} []) [Text "t"; Tag "p" ∅ []]).
Proof. vm_compute. reflexivity. Qed.

Example class_ex :
  Soup.test_holds (Tag "table" {[ "class" := "wide  prettytable" ]} []) (HasClass "prettytable") = true.
Proof. vm_compute. reflexivity. Qed.

Example escape_ex :
  Json.escape_all true (String (ascii_of_nat 233) (String (ascii_of_nat 9) "a~"))
  = String Json.backslash "u00e9" +:+ String Json.backslash "ta~"
  ∧ Json.escape_all false (String (ascii_of_nat 233) (String (ascii_of_nat 31) "a"))
    = String (ascii_of_nat 233) (String Json.backslash "u001fa").
Proof. split; reflexivity. Qed.

Example dumps_ex :
  Json.dumps true [Item "R" None "d"]
  = "[" +:+ Json.newline +:+ "    {" +:+ Json.newline
    +:+ "        " +:+ Json.key "name" +:+ Json.str true "R" +:+ "," +:+ Json.newline
    +:+ "        " +:+ Json.key "image_url" +:+ "null," +:+ Json.newline
    +:+ "        " +:+ Json.key "description" +:+ Json.str true "d" +:+ Json.newline
    +:+ "    }" +:+ Json.newline +:+ "]".
Proof. reflexivity. Qed.

(** The walk of lines 100-112 on [leagues_page]: the table before the start
    heading and the one behind the anime heading are left out, the one under
    the third-level heading is swept in. *)
Example relevant_tables_ex :
  relevant_tables leagues_page =
  [badge_table [badge_tr boulder_info];
   badge_table [badge_tr [Tag "b" ∅ [Text "The Eye of The Storm"]; Text "Abilities: none"]];
   badge_table [badge_tr [Text "Mystery"]]].
Proof. vm_compute. reflexivity. Qed.

Example scrape_gym_badges_ex :
  scrape_gym_badges (λ _, Page leagues_page) gym_badges_url =
  (Val [Item "Boulder Badge" (Some "https://pokemon.fandom.com/b.png")
          "is given out at Pewter City Gym.";
        Item "Eye of Storm" (Some "https://pokemon.fandom.com/b.png")
          "The Eye of The Storm";
        Item "Unnamed Badge" (Some "https://pokemon.fandom.com/b.png")
          "Paldea text"], []).
Proof. vm_compute. reflexivity. Qed.

(** ** Facts about the string methods *)

Section StrFacts.

Implicit Types s t old new : string.

Lemma app_cons c s t : String c s +:+ t = String c (s +:+ t).
Proof. reflexivity. Qed.

Lemma app_nil s : EmptyString +:+ s = s.
Proof. reflexivity. Qed.

Lemma app_empty_r s : s +:+ EmptyString = s.
Proof.
  induction s as [|c s IH]; [done|]. by rewrite app_cons, IH.
Qed.

Lemma app_assoc' s t u : (s +:+ t) +:+ u = s +:+ t +:+ u.
Proof.
  induction s as [|c s IH]; [done|]. by rewrite !app_cons, IH.
Qed.

Lemma app_eq_empty s t : s +:+ t = EmptyString → s = EmptyString ∧ t = EmptyString.
Proof. destruct s; [done | discriminate]. Qed.

Lemma length_app s t : String.length (s +:+ t) = String.length s + String.length t.
Proof.
  induction s as [|c s IH]; [done|]. rewrite app_cons. simpl. by rewrite IH.
Qed.

Lemma prefix_split old s :
  String.prefix old s = true → s = old +:+ Str.drop (String.length old) s.
Proof.
  revert s. induction old as [|c old IH]; intros s H.
  - by destruct s.
  - destruct s as [|d s]; simpl in H; [discriminate|].
    destruct (ascii_dec c d) as [->|]; [|discriminate].
    simpl. rewrite app_cons. f_equal. by apply IH.
Qed.

Lemma prefix_of_empty old :
  old ≠ EmptyString → String.prefix old EmptyString = false.
Proof. by destruct old. Qed.

Lemma take_drop n s : Str.take n s +:+ Str.drop n s = s.
Proof.
  revert s. induction n as [|n IH]; intros [|c s]; simpl; try done.
  by rewrite app_cons, IH.
Qed.

Lemma drop_drop n m s : Str.drop n (Str.drop m s) = Str.drop (m + n) s.
Proof.
  revert s. induction m as [|m IH]; intros s; simpl; [done|].
  destruct s; simpl; [by destruct n | apply IH].
Qed.

Lemma length_drop n s : String.length (Str.drop n s) = String.length s - n.
Proof.
  revert s. induction n as [|n IH]; intros [|c s]; simpl; auto with lia.
Qed.

Lemma find_cons c s old :
  Str.find (String c s) old =
  if String.prefix old (String c s) then Some 0 else S <$> Str.find s old.
Proof. reflexivity. Qed.

(** [find] returns the place of an occurrence. *)
Lemma find_split s old i :
  Str.find s old = Some i →
  s = Str.take i s +:+ old +:+ Str.drop (i + String.length old) s.
Proof.
  revert i. induction s as [|c s IH]; intros i.
  - destruct old; simpl; [|discriminate]. by intros [= <-].
  - rewrite find_cons. destruct (String.prefix old (String c s)) eqn:E.
    + intros [= <-]. by apply prefix_split in E.
    + destruct (Str.find s old) as [j|] eqn:F; [|discriminate].
      intros [= <-]. simpl. rewrite app_cons. f_equal. by apply IH.
Qed.

Lemma find_none_empty old :
  old ≠ EmptyString → Str.find EmptyString old = None.
Proof. by destruct old. Qed.

Lemma find_some_length s old i :
  Str.find s old = Some i → (String.length old ≤ String.length s)%nat.
Proof.
  intros H%find_split. rewrite H, !length_app. lia.
Qed.

(** Once the count reaches the length of the string a larger one changes
    nothing: [replace] without a count replaces every occurrence. *)
Lemma replace_count_enough old new n m s :
  old ≠ EmptyString →
  (String.length s ≤ n)%nat → (String.length s ≤ m)%nat →
  Str.replace_count old new n s = Str.replace_count old new m s.
Proof.
  intros Hold. revert m s. induction n as [|n IH]; intros m s Hn Hm.
  - destruct s; [|simpl in Hn; lia].
    destruct m; simpl; [done|]. by destruct old.
  - destruct m as [|m].
    + destruct s; [|simpl in Hm; lia]. simpl. by destruct old.
    + simpl. destruct (Str.find s old) as [i|] eqn:F; [|done].
      assert (0 < String.length old) by (destruct old; simpl; [done | lia]).
      pose proof (find_some_length _ _ _ F).
      do 2 f_equal. apply IH; rewrite length_drop; lia.
Qed.

Lemma replace_count_deletes old n s :
  old ≠ EmptyString → (String.length s ≤ n)%nat →
  deletes_all old s (Str.replace_count old EmptyString n s).
Proof.
  intros Hold. revert s. induction n as [|n IH]; intros s Hn.
  - destruct s; [|simpl in Hn; lia]. simpl.
    apply deletes_none. by apply find_none_empty.
  - simpl. destruct (Str.find s old) as [i|] eqn:F.
    + rewrite app_nil. apply deletes_next; [done|].
      assert (0 < String.length old) by (destruct old; simpl; [done | lia]).
      pose proof (find_some_length _ _ _ F).
      apply IH. rewrite length_drop. lia.
    + by apply deletes_none.
Qed.

Lemma replace_deletes_all s old :
  old ≠ EmptyString →
  deletes_all old s (Str.replace s old EmptyString None).
Proof.
  intros Hold. unfold Str.replace. destruct old as [|c old]; [done|].
  by apply replace_count_deletes.
Qed.

Lemma deletes_all_fun old s r1 r2 :
  deletes_all old s r1 → deletes_all old s r2 → r1 = r2.
Proof.
  intros H. revert r2. induction H as [s F|s i r F H IH]; intros r2 H2.
  - inversion H2; subst; congruence.
  - inversion H2 as [|s' j r' F' H']; subst; [congruence|].
    rewrite F in F'. injection F' as <-. f_equal. by apply IH.
Qed.

Lemma last_char_none s : last_char s = None → s = EmptyString.
Proof. destruct s as [|c s]; simpl; [done|]. by destruct (last_char s). Qed.

Lemma last_char_app s t :
  last_char (s +:+ t) = match last_char t with None => last_char s | x => x end.
Proof.
  induction s as [|c s IH]; [rewrite app_nil; by destruct (last_char t)|].
  rewrite app_cons. simpl. rewrite IH.
  by destruct (last_char t), (last_char s).
Qed.

Lemma deletes_all_empty old s :
  old ≠ EmptyString → deletes_all old s EmptyString →
  s = EmptyString ∨ last_char s = last_char old.
Proof.
  intros Hold H.
  cut (∀ r, deletes_all old s r → r = EmptyString →
            s = EmptyString ∨ last_char s = last_char old); [by eauto|].
  clear H. intros r H. induction H as [s F|s i r F H IH]; intros Hr; [by left|].
  apply app_eq_empty in Hr as [Ht ->]. right.
  rewrite (find_split _ _ _ F), Ht, app_nil, last_char_app.
  destruct (IH eq_refl) as [->| ->]; [done|].
  destruct (last_char old) eqn:E; [done|]. by apply last_char_none in E.
Qed.

Lemma rstrip_clean s : ends_clean (Str.rstrip s).
Proof.
  unfold ends_clean. induction s as [|c s IH]; simpl; [done|].
  destruct (Str.rstrip s) as [|d r] eqn:E.
  - by destruct (Str.isspace c) eqn:Hc; simpl.
  - simpl in *. by destruct (last_char r).
Qed.

Lemma lstrip_clean s : ends_clean s → ends_clean (Str.lstrip s).
Proof.
  unfold ends_clean. induction s as [|c s IH]; simpl; [done|].
  destruct (Str.isspace c) eqn:Hc; [|done].
  destruct (last_char s) eqn:E; [done|].
  apply last_char_none in E as ->. by rewrite Hc.
Qed.

Lemma strip_clean s : ends_clean (Str.strip s).
Proof. apply lstrip_clean, rstrip_clean. Qed.

Lemma join_clean l :
  Forall ends_clean l → ends_clean (Str.join EmptyString l).
Proof.
  unfold Str.join. induction 1 as [|h t Hh Ht IH]; simpl; [done|].
  destruct t as [|h' t]; [done|].
  rewrite app_nil. unfold ends_clean in *. rewrite last_char_app.
  by destruct (last_char (String.concat EmptyString (h' :: t))).
Qed.

(** A text that does not end in whitespace is emptied by deleting "The "
    only if it was empty. *)
Lemma replace_the_empty s :
  ends_clean s →
  Str.replace s "The " EmptyString None = EmptyString → s = EmptyString.
Proof.
  intros Hs Hr. pose proof (replace_deletes_all s "The " ltac:(done)) as H.
  rewrite Hr in H. apply deletes_all_empty in H as [->|H]; [done| |done].
  unfold ends_clean in Hs. rewrite H in Hs. done.
Qed.

End StrFacts.

(** ** Facts about the tree interface *)

Section SoupFacts.

Lemma get_text_clean n : ends_clean (Soup.get_text EmptyString true n).
Proof.
  unfold Soup.get_text, Soup.stripped_strings. apply join_clean.
  apply List.Forall_forall. intros s [Hs _]%List.filter_In.
  apply List.in_map_iff in Hs as (t & <- & _). apply strip_clean.
Qed.

(** [find_next_sibling()] is the head of [later_tags]. *)
Lemma first_tag_later l :
  match Soup.first_tag None l with
  | Some e => List.filter is_tag l = here e :: later_tags e
  | None => List.filter is_tag l = []
  end.
Proof.
  induction l as [|n l IH]; simpl; [done|].
  destruct n as [s|nm a cs]; simpl; [apply IH | done].
Qed.

Lemma find_next_sibling_later e :
  later_tags e = match Soup.find_next_sibling None e with
                 | Some e' => here e' :: later_tags e'
                 | None => []
                 end.
Proof.
  unfold Soup.find_next_sibling, later_tags at 1.
  pose proof (first_tag_later (next_siblings e)) as H.
  by destruct (Soup.first_tag None (next_siblings e)).
Qed.

End SoupFacts.

(** ** Facts about the loops *)

Section Loops.

Lemma bind_val {S A B} (m : M S A) (f : A → M S B) s a s' :
  m s = (Val a, s') → (m ≫= f) s = f a s'.
Proof. unfold mbind, M_bind. by intros ->. Qed.

Lemma ribbon_row_eq row fr :
  ribbon_row row fr =
  (Val (), Frame (data fr ++ option_list (ribbon_row_item row)) (printed fr)).
Proof.
  unfold ribbon_row, ribbon_row_item.
  destruct fr as [d p].
  destruct (Soup.find_all "td" [] (here row)) as [|c0 [|c1 [|c2 rest]]];
    simpl; unfold mret, M_ret; simpl; by rewrite ?app_nil_r.
Qed.

Lemma ribbon_rows_eq rows fr :
  for_each rows ribbon_row fr =
  (Val (), Frame (data fr ++ omap ribbon_row_item rows) (printed fr)).
Proof.
  revert fr. induction rows as [|row rows IH]; intros [d p]; simpl.
  - unfold mret, M_ret. by rewrite app_nil_r.
  - erewrite bind_val by apply ribbon_row_eq. rewrite IH. simpl.
    destruct (ribbon_row_item row); simpl; by rewrite <- ?app_assoc, ?app_nil_r.
Qed.

(** What a call of the ribbon extractor gives, case by case. *)
Lemma scrape_pokemon_ribbons_eq net url :
  scrape_pokemon_ribbons net url =
  match net url with
  | Failed (RequestException m) =>
      (Val [], ["Error making request to " +:+ url +:+ ": " +:+ m])
  | Failed e => (Val [], ["An unexpected error occurred: " +:+ message e])
  | Page soup =>
      match Soup.find "table" [HasClass "dextable"] soup with
      | None => (Val [], ["Error: Could not find the ribbon table."])
      | Some ribbon_table =>
          (Val (omap ribbon_row_item (ribbon_rows (here ribbon_table))), [])
      end
  end.
Proof.
  unfold scrape_pokemon_ribbons, run_extractor, try_except, ribbons_body, request.
  destruct (net url) as [e|soup].
  - by destruct e.
  - unfold mbind at 1, M_bind at 1. unfold mret at 1, M_ret at 1.
    destruct (Soup.find "table" [HasClass "dextable"] soup) as [t|]; [|done].
    unfold mbind, M_bind. by rewrite ribbon_rows_eq.
Qed.

Lemma scrape_pokemon_ribbons_val net url :
  ∃ l out, scrape_pokemon_ribbons net url = (Val l, out).
Proof.
  rewrite scrape_pokemon_ribbons_eq.
  destruct (net url) as [[]|soup]; eauto.
  destruct (Soup.find _ _ soup); eauto.
Qed.

Lemma ribbon_row_item_some row :
  is_Some (ribbon_row_item row) ↔ full_row row = true.
Proof.
  unfold ribbon_row_item, full_row. rewrite bool_decide_eq_true.
  destruct (Soup.find_all "td" [] (here row)) as [|c0 [|c1 [|c2 rest]]];
    simpl; split; intros H; try lia; try (by destruct H); eauto.
Qed.

Lemma length_omap_rows rows :
  length (omap ribbon_row_item rows) = length (List.filter full_row rows).
Proof.
  induction rows as [|row rows IH]; simpl; [done|].
  pose proof (ribbon_row_item_some row) as [H1 H2].
  destruct (ribbon_row_item row), (full_row row); simpl; auto with lia.
  - by specialize (H1 ltac:(eauto)).
  - by destruct (H2 eq_refl).
Qed.

(** The records of the ribbon loop stand in the order of the rows that have
    their three cells. *)
Lemma omap_lookup_full rows i r :
  omap ribbon_row_item rows !! i = Some r →
  ∃ row, List.filter full_row rows !! i = Some row
         ∧ ribbon_row_item row = Some r.
Proof.
  revert i. induction rows as [|row rows IH]; intros i; simpl; [done|].
  pose proof (ribbon_row_item_some row) as [H1 H2].
  destruct (ribbon_row_item row) as [x|] eqn:E, (full_row row) eqn:F.
  - destruct i as [|i]; simpl; [|apply IH]. intros [= <-]. eauto.
  - by specialize (H1 ltac:(eauto)).
  - by destruct (H2 eq_refl).
  - apply IH.
Qed.

Lemma appends_refl P fr : appends P fr fr.
Proof. split; [done|]. exists []. by rewrite app_nil_r. Qed.

Lemma appends_trans P fr1 fr2 fr3 :
  appends P fr1 fr2 → appends P fr2 fr3 → appends P fr1 fr3.
Proof.
  intros [Hp1 (a1 & H1 & F1)] [Hp2 (a2 & H2 & F2)]. split; [congruence|].
  exists (a1 ++ a2). rewrite H2, H1, <- app_assoc. split; [done|].
  by apply Forall_app.
Qed.

Lemma appends_mono (P Q : item → Prop) fr fr' :
  (∀ r, P r → Q r) → appends P fr fr' → appends Q fr fr'.
Proof.
  intros HPQ [Hp (added & Hd & H)]. split; [done|]. exists added.
  split; [done|]. eapply Forall_impl; eauto.
Qed.

(** A loop whose body, at [x], appends only entries related to [x] appends
    only entries related to some element of the list, also when it is cut
    short by an exception. *)
Lemma for_each_appends {X} (P : X → item → Prop) (body : X → M frame unit) l fr :
  (∀ x fr, x ∈ l → appends (P x) fr (body x fr).2) →
  appends (λ r, ∃ x, x ∈ l ∧ P x r) fr (for_each l body fr).2.
Proof.
  revert fr. induction l as [|x l IH]; intros fr Hbody; simpl.
  - apply appends_refl.
  - unfold mbind, M_bind.
    pose proof (Hbody x fr (list_elem_of_here _ _)) as Hx.
    assert (appends (λ r, ∃ y, y ∈ x :: l ∧ P y r) fr (body x fr).2) as Hx'.
    { eapply appends_mono; [|exact Hx]. intros r Hr. exists x.
      split; [apply list_elem_of_here | done]. }
    destruct (body x fr) as [[[]|e] fr1]; simpl in *; [|done].
    eapply appends_trans; [exact Hx'|].
    eapply appends_mono; [|apply IH].
    + intros r (y & Hy & Hr). exists y. split; [by apply list_elem_of_further | done].
    + intros y fr' Hy. apply Hbody. by apply list_elem_of_further.
Qed.

Lemma badge_name_source info_column :
  badge_name info_column =
  from_option (λ t, Str.replace t "The " EmptyString None) "Unnamed Badge"
    (name_source info_column).
Proof.
  unfold badge_name, name_source.
  destruct (Soup.find "b" [] info_column); [done|].
  by destruct (Soup.find "span" [AttrPresent "id"] info_column).
Qed.

Lemma name_source_clean info_column t :
  name_source info_column = Some t → ends_clean t.
Proof.
  unfold name_source.
  destruct (Soup.find "b" [] info_column).
  { intros [= <-]. apply get_text_clean. }
  destruct (Soup.find "span" [AttrPresent "id"] info_column); [|done].
  intros [= <-]. apply get_text_clean.
Qed.

(** A badge name is empty only for a bold element or span without text. *)
Lemma badge_name_empty info_column :
  badge_name info_column = EmptyString ↔
  name_source info_column = Some EmptyString.
Proof.
  rewrite badge_name_source.
  destruct (name_source info_column) as [t|] eqn:E; simpl.
  - split.
    + intros H. f_equal. eapply replace_the_empty; [|done].
      by eapply name_source_clean.
    + by intros [= ->].
  - split; discriminate.
Qed.

(** What the body of the row loop does: nothing for a row with fewer than
    two cells; for a named row, or on a page where the "Paldea League"
    heading is found, one entry appended; and for an unnamed row on a page
    without that heading, [AttributeError] and nothing appended. *)
Lemma badge_row_eq soup row fr :
  badge_row soup row fr =
  match Soup.find_all "td" [] (here row) with
  | image_column :: info_column :: _ =>
      let nm := badge_name (here info_column) in
      let full_info_text := Soup.get_text " " true (here info_column) in
      let emit d :=
        (Val (), Frame (data fr ++ [Item nm (badge_image_url (here image_column)) d])
                   (printed fr)) in
      if bool_decide (nm = "Unnamed Badge") then
        match Soup.find "h2" [AttrIs "id" "Paldea_League"] soup with
        | Some heading =>
            match Soup.find_next_sibling (Some "p") heading with
            | Some paldea_desc_p =>
                emit (Soup.get_text EmptyString true (here paldea_desc_p))
            | None => emit full_info_text
            end
        | None => (Raise (AttributeError none_has_no_find_next_sibling), fr)
        end
      else emit (clean_description nm full_info_text)
  | _ => (Val (), fr)
  end.
Proof.
  unfold badge_row.
  destruct (Soup.find_all "td" [] (here row)) as [|c0 [|c1 rest]]; try done.
  unfold mbind, M_bind, paldea_description.
  destruct (bool_decide (badge_name (here c1) = "Unnamed Badge")); [|done].
  destruct (Soup.find "h2" [AttrIs "id" "Paldea_League"] soup) as [h|]; [|done].
  by destruct (Soup.find_next_sibling (Some "p") h).
Qed.

Lemma badge_row_appends soup row fr :
  appends (badge_of_row row) fr (badge_row soup row fr).2.
Proof.
  rewrite badge_row_eq.
  destruct (Soup.find_all "td" [] (here row)) as [|c0 [|c1 rest]] eqn:Hcols;
    try apply appends_refl.
  assert (∀ d, appends (badge_of_row row) fr
            (Frame (data fr ++ [Item (badge_name (here c1))
                                  (badge_image_url (here c0)) d]) (printed fr)))
    as Hemit.
  { intros d. split; [done|]. eexists; split; [done|].
    apply Forall_singleton. by exists c0, c1, rest. }
  simpl. case_bool_decide; [|apply Hemit].
  destruct (Soup.find "h2" _ soup) as [h|]; [|apply appends_refl].
  destruct (Soup.find_next_sibling _ h); apply Hemit.
Qed.

(** The badge extractor never lets an exception through, and each entry it
    returns was made from a row of a table it reads on the page. *)
Lemma scrape_gym_badges_appends net url :
  ∃ l out,
    scrape_gym_badges net url = (Val l, out)
    ∧ Forall (λ r, ∃ soup, net url = Page soup ∧ badge_of_page soup r) l.
Proof.
  unfold scrape_gym_badges, run_extractor, try_except, badges_body, request.
  destruct (net url) as [e|soup].
  - destruct e; simpl; eauto.
  - unfold mbind at 1, M_bind at 1. unfold mret at 1, M_ret at 1.
    unfold mbind at 1, M_bind at 1.
    assert (appends (λ r, ∃ soup', Page soup = Page soup' ∧ badge_of_page soup' r)
              (Frame [] [])
              (for_each (relevant_tables soup)
                 (λ table, for_each (badge_rows table) (badge_row soup))
                 (Frame [] [])).2) as H.
    { eapply appends_mono;
        [|apply (for_each_appends
                   (λ table r, ∃ row, row ∈ badge_rows table ∧ badge_of_row row r))].
      - intros r (table & Htable & row & Hrow & Hr).
        exists soup. split; [done|]. by exists table, row.
      - intros table fr' _. apply for_each_appends.
        intros row fr'' _. apply badge_row_appends. }
    destruct (for_each (relevant_tables soup) _ (Frame [] [])) as [[[]|e] fr].
    + destruct H as [_ (added & Hd & H)]. simpl in *. rewrite Hd. eauto.
    + destruct H as [_ (added & Hd & H)]. simpl in Hd.
      destruct e; simpl; rewrite Hd; eauto.
Qed.

Lemma for_each_app {S X} (body : X → M S unit) l1 l2 s :
  for_each (l1 ++ l2) body s = (for_each l1 body ;; for_each l2 body) s.
Proof.
  revert s. induction l1 as [|x l1 IH]; intros s; simpl.
  - reflexivity.
  - unfold mbind, M_bind in *. destruct (body x s) as [[[]|e] s']; [|done].
    apply IH.
Qed.

(** Two nested loops visit the concatenation of the inner lists. *)
Lemma for_each_concat {S X Y} (f : X → list Y) (body : Y → M S unit) l s :
  for_each l (λ x, for_each (f x) body) s = for_each (concat (f <$> l)) body s.
Proof.
  revert s. induction l as [|x l IH]; intros s; simpl; [done|].
  rewrite for_each_app. unfold mbind, M_bind.
  destruct (for_each (f x) body s) as [[[]|e] s']; [|done]. apply IH.
Qed.

Lemma badge_row_item_eq soup row fr :
  badge_row soup row fr =
  if unnamed_row row
     && bool_decide (Soup.find "h2" [AttrIs "id" "Paldea_League"] soup = None)
  then (Raise (AttributeError none_has_no_find_next_sibling), fr)
  else (Val (),
        Frame (data fr ++
               option_list
                 (badge_row_item
                    (Soup.find "h2" [AttrIs "id" "Paldea_League"] soup) row))
          (printed fr)).
Proof.
  rewrite badge_row_eq. unfold unnamed_row, badge_row_item, unnamed_description.
  destruct fr as [d p].
  destruct (Soup.find_all "td" [] (here row)) as [|c0 [|c1 rest]]; simpl;
    rewrite ?app_nil_r; try done.
  destruct (bool_decide (badge_name (here c1) = "Unnamed Badge")); simpl; [|done].
  destruct (Soup.find "h2" [AttrIs "id" "Paldea_League"] soup) as [h|]; simpl;
    [|done].
  by destruct (Soup.find_next_sibling (Some "p") h).
Qed.

Lemma badge_loop_with_heading soup heading rows fr :
  Soup.find "h2" [AttrIs "id" "Paldea_League"] soup = Some heading →
  for_each rows (badge_row soup) fr =
  (Val (),
   Frame (data fr ++ omap (badge_row_item (Some heading)) rows) (printed fr)).
Proof.
  intros Hh. revert fr. induction rows as [|row rows IH]; intros [d p]; simpl.
  - unfold mret, M_ret. by rewrite app_nil_r.
  - unfold mbind, M_bind. rewrite badge_row_item_eq, Hh.
    rewrite andb_false_r. rewrite IH. simpl.
    destruct (badge_row_item (Some heading) row); simpl;
      by rewrite <- ?app_assoc, ?app_nil_r.
Qed.

Lemma badge_loop_without_heading soup rows fr :
  Soup.find "h2" [AttrIs "id" "Paldea_League"] soup = None →
  for_each rows (badge_row soup) fr =
  (if existsb unnamed_row rows
   then Raise (AttributeError none_has_no_find_next_sibling) else Val (),
   Frame (data fr ++ omap (badge_row_item None) (before_first unnamed_row rows))
     (printed fr)).
Proof.
  intros Hh. revert fr. induction rows as [|row rows IH]; intros [d p]; simpl.
  - unfold mret, M_ret. by rewrite app_nil_r.
  - unfold mbind, M_bind. rewrite badge_row_item_eq, Hh. simpl.
    rewrite andb_true_r. destruct (unnamed_row row); simpl.
    + by rewrite app_nil_r.
    + rewrite IH. simpl.
      destruct (badge_row_item None row); simpl;
        by rewrite <- ?app_assoc, ?app_nil_r.
Qed.

(** What a call of the badge extractor gives, case by case. *)
Lemma scrape_gym_badges_eq net url :
  scrape_gym_badges net url =
  match net url with
  | Failed (RequestException m) =>
      (Val [], ["Error making request to " +:+ url +:+ ": " +:+ m])
  | Failed e =>
      (Val [], ["An unexpected error occurred during scraping: " +:+ message e])
  | Page soup =>
      match Soup.find "h2" [AttrIs "id" "Paldea_League"] soup with
      | Some heading =>
          (Val (omap (badge_row_item (Some heading)) (rows_read soup)), [])
      | None =>
          (Val (omap (badge_row_item None)
                  (before_first unnamed_row (rows_read soup))),
           if existsb unnamed_row (rows_read soup)
           then [scraping_failed] else [])
      end
  end.
Proof.
  unfold scrape_gym_badges, run_extractor, try_except, badges_body, request.
  destruct (net url) as [e|soup].
  - by destruct e.
  - unfold mbind at 1, M_bind at 1. unfold mret at 1, M_ret at 1.
    unfold mbind at 1, M_bind at 1.
    rewrite (for_each_concat badge_rows (badge_row soup)).
    fold (rows_read soup).
    destruct (Soup.find "h2" [AttrIs "id" "Paldea_League"] soup) as [h|] eqn:Hh.
    + by erewrite badge_loop_with_heading.
    + rewrite badge_loop_without_heading by done.
      by destruct (existsb unnamed_row (rows_read soup)).
Qed.

(** The test of line 119 changes nothing: the rows read are those after the
    first. *)
Lemma badge_rows_drop table :
  badge_rows table = drop 1 (Soup.find_all "tr" [] table).
Proof.
  unfold badge_rows. cbv zeta. case_bool_decide as H; [done|].
  destruct (Soup.find_all "tr" [] table) as [|x [|y l]]; simpl in *; try done.
  lia.
Qed.

Lemma rows_read_after_header soup : rows_read soup = rows_after_header soup.
Proof.
  unfold rows_read, rows_after_header. f_equal.
  induction (relevant_tables soup) as [|t l IH]; [done|].
  csimpl. by rewrite badge_rows_drop, IH.
Qed.

Lemma badge_row_item_name heading row image_column info_column rest :
  Soup.find_all "td" [] (here row) = image_column :: info_column :: rest →
  ∃ d, badge_row_item (Some heading) row =
       Some (Item (badge_name (here info_column))
               (badge_image_url (here image_column)) d).
Proof.
  intros H. unfold badge_row_item. rewrite H. cbv zeta.
  case_bool_decide; simpl; eauto.
Qed.

Lemma badge_image_address image_column :
  badge_image_url image_column = image_address image_column.
Proof.
  unfold badge_image_url, image_address. cbv zeta.
  destruct (Soup.find "img" [HasClass "mw-file-element"] image_column) as [i|];
    [|done].
  generalize (match Soup.attr "data-src" (here i) with
              | Some v => Some v
              | None => Soup.attr "src" (here i)
              end).
  intros [v|]; [|done]. cbn [fmap option_fmap option_map]. f_equal.
  destruct v as [|c v]; [done|]. cbn [Str.nonempty andb].
  rewrite (bool_decide_eq_false_2 (String c v = EmptyString)) by done.
  cbn [orb]. by destruct (Str.startswith (String c v) "http").
Qed.

End Loops.

(** ** Facts about the dump and standard output *)

Section DumpFacts.

Lemma all_chars_app p s t :
  all_chars p (s +:+ t) = all_chars p s && all_chars p t.
Proof.
  induction s as [|c s IH]; [done|].
  rewrite app_cons. simpl. by rewrite IH, andb_assoc.
Qed.

Lemma escape_plain c : all_chars plain (Json.escape true c) = true.
Proof. by destruct c as [[] [] [] [] [] [] [] []]. Qed.

Lemma str_plain s : all_chars plain (Json.str true s) = true.
Proof.
  unfold Json.str. cbn [all_chars]. rewrite all_chars_app.
  replace (all_chars plain (Json.escape_all true s)) with true; [done|].
  induction s as [|c s IH]; [done|].
  cbn [Json.escape_all]. by rewrite all_chars_app, escape_plain, <- IH.
Qed.

Lemma object_plain r : all_chars plain (Json.object true r) = true.
Proof.
  unfold Json.object. rewrite !all_chars_app, !str_plain.
  destruct (image_url r) as [u|]; simpl; [|done].
  pose proof (str_plain u) as H. simpl in H. by rewrite H.
Qed.

Lemma concat_all_chars p sep l :
  all_chars p sep = true →
  Forall (λ s, all_chars p s = true) l →
  all_chars p (String.concat sep l) = true.
Proof.
  intros Hsep. induction 1 as [|h t Hh Ht IH]; [done|].
  cbn [String.concat]. destruct t as [|h' t]; [done|].
  rewrite !all_chars_app, Hh, Hsep. exact IH.
Qed.

Lemma dumps_true_plain l : all_chars plain (Json.dumps true l) = true.
Proof.
  unfold Json.dumps. destruct l as [|r l]; [done|].
  rewrite !all_chars_app, concat_all_chars; [done..|].
  apply Forall_fmap, Forall_forall. intros r' _. apply object_plain.
Qed.

Lemma plain_printable encodes s :
  all_chars plain s = true → printable encodes s = true.
Proof.
  unfold printable. induction s as [|c s IH]; [done|].
  cbn [all_chars]. intros [Hc Hs]%andb_true_iff. rewrite IH by done.
  rewrite andb_true_r. revert Hc.
  destruct c as [[] [] [] [] [] [] [] []]; vm_compute; intros; done.
Qed.

(** The dump made with [ensure_ascii] can always be printed. *)
Lemma dumps_true_printable encodes l :
  printable encodes (Json.dumps true l) = true.
Proof. apply plain_printable, dumps_true_plain. Qed.

Lemma printable_lines encodes :
  printable encodes "No gym badge data was scraped." = true
  ∧ printable encodes "No ribbon data was scraped." = true
  ∧ printable encodes
      (Json.newline +:+ "Gym badge data saved to pokemon_gym_badges.json")
    = true
  ∧ printable encodes
      (Json.newline +:+ "Ribbon data saved to pokemon_ribbons.json") = true.
Proof. repeat split. Qed.

(** A run of the driver: it stops at the [print] of the badge dump when
    standard output cannot encode it, and goes through otherwise. *)
Lemma main_run encodes net w :
  ∃ badges out_b ribbons out_r,
    scrape_gym_badges net gym_badges_url = (Val badges, out_b)
    ∧ scrape_pokemon_ribbons net ribbons_page_url = (Val ribbons, out_r)
    ∧ main encodes net w =
      if badges_printable encodes badges
      then (Val (),
            World
              (saved ribbons_file (Json.dumps true ribbons) ribbons
                 (saved badges_file (Json.dumps false badges) badges (files w)))
              (console w ++ out_b
               ++ reported (Json.dumps false badges) badges_saved_line
                    "No gym badge data was scraped." badges
               ++ out_r
               ++ reported (Json.dumps true ribbons) ribbons_saved_line
                    "No ribbon data was scraped." ribbons))
      else (Raise unicode_encode_error, World (files w) (console w ++ out_b)).
Proof.
  destruct (scrape_gym_badges_appends net gym_badges_url)
    as (badges & out_b & Hb & _).
  destruct (scrape_pokemon_ribbons_val net ribbons_page_url)
    as (ribbons & out_r & Hr).
  exists badges, out_b, ribbons, out_r. split; [done|]. split; [done|].
  destruct (printable_lines encodes) as (P1 & P2 & P3 & P4).
  destruct w as [fs con].
  unfold main, call, echo, write_file, mbind, M_bind. rewrite Hb, Hr.
  cbv zeta. cbn [fst snd files console].
  destruct badges as [|b badges]; cbn [badges_printable].
  - rewrite P1. cbn [fst snd files console].
    destruct ribbons as [|r ribbons].
    + rewrite P2. cbn [fst snd files console saved reported].
      by rewrite <- !app_assoc.
    + rewrite dumps_true_printable. cbn [fst snd files console].
      rewrite P4. cbn [fst snd files console saved reported].
      by rewrite <- !app_assoc.
  - destruct (printable encodes (Json.dumps false (b :: badges))); [|done].
    cbn [fst snd files console]. rewrite P3. cbn [fst snd files console].
    destruct ribbons as [|r ribbons].
    + rewrite P2. cbn [fst snd files console saved reported].
      by rewrite <- !app_assoc.
    + rewrite dumps_true_printable. cbn [fst snd files console].
      rewrite P4. cbn [fst snd files console saved reported].
      by rewrite <- !app_assoc.
Qed.

End DumpFacts.

(** ** The ribbon extractor *)

Section Ribbons.

(** C6.  When the page has its table, the extractor returns, in document
    order, one record for each [tr] of the table after the first that has at
    least three cells: as many records as there are such rows (all [N] of
    them when every row after the first has three cells).  The first row is
    never read, a row with fewer cells gives no record, and nothing is
    printed and nothing raised. *)
Theorem ribbons_one_record_per_full_row net url soup ribbon_table :
  net url = Page soup →
  Soup.find "table" [HasClass "dextable"] soup = Some ribbon_table →
  let rows := drop 1 (Soup.find_all "tr" [] (here ribbon_table)) in
  scrape_pokemon_ribbons net url = (Val (omap ribbon_row_item rows), [])
  ∧ length (omap ribbon_row_item rows) = length (List.filter full_row rows)
  ∧ (∀ row, full_row row = false → ribbon_row_item row = None)
  ∧ (∀ row image_column name_column description_column rest,
       Soup.find_all "td" [] (here row)
       = image_column :: name_column :: description_column :: rest →
       ribbon_row_item row =
       Some (Item (Soup.get_text EmptyString true (here name_column))
               (ribbon_image_url (here image_column))
               (Soup.get_text " " true (here description_column))))
  ∧ (Forall (λ row, full_row row = true) rows →
     length (omap ribbon_row_item rows) = length rows).
Proof.
  intros Hnet Hfind rows. rewrite scrape_pokemon_ribbons_eq, Hnet, Hfind.
  split; [done|]. split; [apply length_omap_rows|].
  split; [|split].
  - intros row Hrow. destruct (ribbon_row_item row) eqn:E; [|done].
    assert (is_Some (ribbon_row_item row)) as H%ribbon_row_item_some by eauto.
    congruence.
  - intros row c0 c1 c2 rest Hc. unfold ribbon_row_item. by rewrite Hc.
  - intros Hall. rewrite length_omap_rows. f_equal.
    induction Hall as [|row l Hrow Hall IH]; simpl; [done|].
    by rewrite Hrow, IH.
Qed.

Lemma ribbons_one_record_per_full_row_witness :
  scrape_pokemon_ribbons sample_net ribbons_page_url =
  (Val [Item "Champion Ribbon"
          (Some "https://www.serebii.net/games//img/r1.png") "Won the league.";
        Item EmptyString (Some "http://x/y.png") "Two  words"], []).
Proof.
  refine (proj1 (ribbons_one_record_per_full_row sample_net ribbons_page_url
                   sample_ribbons
                   (Element (ribbons_table sample_rows) []) _ _));
    vm_compute; reflexivity.
Defined.



(** C2, as stated, fails: the base the code puts in front ends in a slash,
    so the source "/img/r1.png" comes out with two slashes. *)
Lemma ribbon_relative_src_counterexample :
  ∃ r rest,
    (scrape_pokemon_ribbons sample_net ribbons_page_url).1 = Val (r :: rest)
    ∧ image_url r = Some "https://www.serebii.net/games//img/r1.png"
    ∧ image_url r ≠ Some ("https://www.serebii.net/games" +:+ "/img/r1.png").
Proof.
  eexists _, _. split; [vm_compute; reflexivity|]. split; [reflexivity|].
  vm_compute. discriminate.
Qed.

(** C2, as the code has it.  The source of the image that starts with
    "http" is kept; any other is put behind
    "https://www.serebii.net/games/", which ends in a slash. *)
Theorem ribbon_image_url_absolute
    image_column name_column description_column img_tag src :
  Soup.find "img" [] image_column = Some img_tag →
  Soup.attr "src" (here img_tag) = Some src →
  image_url (ribbon_item image_column name_column description_column) =
  Some (if Str.startswith src "http" then src
        else "https://www.serebii.net/games/" +:+ src).
Proof.
  intros Himg Hsrc. simpl. unfold ribbon_image_url. rewrite Himg, Hsrc.
  by destruct (Str.startswith src "http").
Qed.

Lemma ribbon_image_url_absolute_witness :
  image_url (ribbon_item (Tag "td" ∅ [img "/img/r1.png"]) (Text "n") (Text "d"))
  = Some "https://www.serebii.net/games//img/r1.png".
Proof.
  refine (ribbon_image_url_absolute (Tag "td" ∅ [img "/img/r1.png"])
            (Text "n") (Text "d") (Element (img "/img/r1.png") [])
            "/img/r1.png" _ _);
    vm_compute; reflexivity.
Defined.

End Ribbons.

(** ** The badge extractor *)

Section Badges.

(** C5.  On a page without the anime heading the tables read are all the
    tables of class [prettytable] of the page, in document order, wherever
    they stand. *)
Theorem no_anime_heading_takes_all_tables soup :
  Soup.find "h2" [AttrIs "id" "Anime_exclusive"] soup = None →
  relevant_tables soup =
    here <$> Soup.find_all "table" [HasClass "prettytable"] soup
  ∧ ∀ e, e ∈ Soup.descendants soup →
         Soup.matches "table" [HasClass "prettytable"] (here e) = true →
         here e ∈ relevant_tables soup.
Proof.
  intros Hfind. unfold relevant_tables. rewrite Hfind. split; [done|].
  intros e He Hm. apply list_elem_of_fmap_2. unfold Soup.find_all.
  apply list_elem_of_In, List.filter_In. by rewrite <- list_elem_of_In.
Qed.

Lemma no_anime_heading_witness :
  relevant_tables page_without_paldea =
  here <$> Soup.find_all "table" [HasClass "prettytable"] page_without_paldea.
Proof.
  refine (proj1 (no_anime_heading_takes_all_tables page_without_paldea _)).
  vm_compute; reflexivity.
Defined.

(** C10.  On a page with the anime heading but without the "Indigo League"
    heading no table is read, whatever tables the page has, and the
    extractor returns the empty list. *)
Theorem anime_heading_without_start net url soup anime_exclusive_heading :
  net url = Page soup →
  Soup.find "h2" [AttrIs "id" "Anime_exclusive"] soup
    = Some anime_exclusive_heading →
  Soup.find "h2" [AttrIs "id" "Indigo_League"] soup = None →
  relevant_tables soup = [] ∧ scrape_gym_badges net url = (Val [], []).
Proof.
  intros Hnet Hanime Hstart.
  assert (relevant_tables soup = []) as Hrel.
  { unfold relevant_tables. by rewrite Hanime, Hstart. }
  split; [done|].
  unfold scrape_gym_badges, run_extractor, try_except, badges_body, request.
  rewrite Hnet. unfold mbind at 1, M_bind at 1. unfold mret at 1, M_ret at 1.
  by rewrite Hrel.
Qed.

Lemma anime_heading_without_start_witness :
  Soup.find_all "table" [HasClass "prettytable"] page_without_start ≠ []
  ∧ scrape_gym_badges (λ _, Page page_without_start) gym_badges_url
    = (Val [], []).
Proof.
  split; [vm_compute; discriminate|].
  refine (proj2 (anime_heading_without_start (λ _, Page page_without_start)
                   gym_badges_url page_without_start
                   (Element (h2 "Anime_exclusive")
                      [badge_table [badge_tr [Tag "b" ∅ [Text "Anime"]]]])
                   _ _ _));
    vm_compute; reflexivity.
Defined.

(** C9, as stated, fails: with two occurrences of "The " in the bold text
    both are deleted, not the first only. *)
Lemma badge_name_first_the_counterexample :
  Soup.find "b" [] storm_cell
    = Some (Element (Tag "b" ∅ [Text "The Eye of The Storm"]) [])
  ∧ badge_name storm_cell = "Eye of Storm"
  ∧ Str.replace "The Eye of The Storm" "The " EmptyString (Some 1)
    = "Eye of The Storm"
  ∧ badge_name storm_cell
    ≠ Str.replace "The Eye of The Storm" "The " EmptyString (Some 1).
Proof. repeat split; try (vm_compute; reflexivity). vm_compute. discriminate. Qed.

(** C9, as the code has it.  The name of a cell with a bold element is the
    stripped text of that element with every occurrence of "The " deleted,
    wherever it stands, the occurrences being taken from the left; the same
    holds for the first span with an id when there is no bold element. *)
Theorem badge_name_deletes_every_the info_column :
  (∀ name_tag, Soup.find "b" [] info_column = Some name_tag →
     deletes_all "The " (Soup.get_text EmptyString true (here name_tag))
       (badge_name info_column))
  ∧ (∀ span_with_id,
       Soup.find "b" [] info_column = None →
       Soup.find "span" [AttrPresent "id"] info_column = Some span_with_id →
       deletes_all "The " (Soup.get_text EmptyString true (here span_with_id))
         (badge_name info_column)).
Proof.
  unfold badge_name. split.
  - intros name_tag ->. by apply replace_deletes_all.
  - intros span -> ->. by apply replace_deletes_all.
Qed.

Lemma badge_name_deletes_every_the_witness :
  deletes_all "The " "Badge of The Sea"
    (badge_name (Tag "td" ∅ [Tag "b" ∅ [Text " Badge of The Sea "]])).
Proof.
  refine (proj1 (badge_name_deletes_every_the
                   (Tag "td" ∅ [Tag "b" ∅ [Text " Badge of The Sea "]]))
            (Element (Tag "b" ∅ [Text " Badge of The Sea "]) []) _).
  vm_compute; reflexivity.
Defined.

Example badge_of_the_sea :
  badge_name (Tag "td" ∅ [Tag "b" ∅ [Text " Badge of The Sea "]]) = "Badge of Sea".
Proof. vm_compute; reflexivity. Qed.

(** The steps of the chain on [boulder_text]. *)
Example boulder_steps :
  let stripped :=
    Str.strip (Str.replace boulder_text "The Boulder Badge" EmptyString (Some 1)) in
  stripped = "is given out at Pewter City Gym. Abilities: Use Strength."
  ∧ Str.startswith stripped "is given out at" = true
  ∧ Str.split1 stripped "Abilities:" =
    ["is given out at Pewter City Gym. "; " Use Strength."].
Proof. repeat split. Qed.

(** C3.  A row whose info cell reads as [boulder_text] and whose name is
    "Boulder Badge" is emitted with the description
    "is given out at Pewter City Gym.": the prefix "The Boulder Badge" is
    taken off once, the rest is cut at "Abilities:", and the whitespace is
    collapsed. *)
Theorem boulder_badge_description
    soup row image_column info_column rest fr :
  Soup.find_all "td" [] (here row) = image_column :: info_column :: rest →
  Soup.get_text " " true (here info_column) = boulder_text →
  badge_name (here info_column) = "Boulder Badge" →
  clean_description "Boulder Badge" boulder_text =
    "is given out at Pewter City Gym."
  ∧ badge_row soup row fr =
    (Val (),
     Frame (data fr ++
            [Item "Boulder Badge" (badge_image_url (here image_column))
               "is given out at Pewter City Gym."])
       (printed fr)).
Proof.
  intros Hcols Htext Hname. split; [reflexivity|].
  rewrite badge_row_eq, Hcols. simpl. rewrite Hname, Htext. reflexivity.
Qed.

Lemma boulder_badge_description_witness :
  badge_row (Tag "[document]" ∅ []) (Element boulder_row []) (Frame [] []) =
  (Val (),
   Frame [Item "Boulder Badge" (Some "https://pokemon.fandom.com/b.png")
            "is given out at Pewter City Gym."] []).
Proof.
  refine (proj2 (boulder_badge_description (Tag "[document]" ∅ [])
                   (Element boulder_row [])
                   (Element badge_image_cell [Tag "td" ∅ boulder_info])
                   (Element (Tag "td" ∅ boulder_info) []) []
                   (Frame [] []) _ _ _));
    vm_compute; reflexivity.
Defined.

(** On a page with the heading, an unnamed row takes the text of the first
    paragraph among the later siblings of the heading, else the text of its
    own info cell. *)
Lemma unnamed_row_with_heading
    soup row image_column info_column rest heading fr :
  Soup.find_all "td" [] (here row) = image_column :: info_column :: rest →
  badge_name (here info_column) = "Unnamed Badge" →
  Soup.find "h2" [AttrIs "id" "Paldea_League"] soup = Some heading →
  badge_row soup row fr =
  (Val (),
   Frame (data fr ++
          [Item "Unnamed Badge" (badge_image_url (here image_column))
             (match Soup.find_next_sibling (Some "p") heading with
              | Some p => Soup.get_text EmptyString true (here p)
              | None => Soup.get_text " " true (here info_column)
              end)])
     (printed fr)).
Proof.
  intros Hcols Hname Hfind. rewrite badge_row_eq, Hcols. simpl.
  rewrite Hname, Hfind. simpl.
  by destruct (Soup.find_next_sibling (Some "p") heading).
Qed.

(** An unnamed row on a page without the "Paldea League" heading raises
    and appends nothing. *)
Lemma unnamed_row_raises soup row image_column info_column rest fr :
  Soup.find_all "td" [] (here row) = image_column :: info_column :: rest →
  badge_name (here info_column) = "Unnamed Badge" →
  Soup.find "h2" [AttrIs "id" "Paldea_League"] soup = None →
  badge_row soup row fr =
  (Raise (AttributeError none_has_no_find_next_sibling), fr).
Proof.
  intros Hcols Hname Hfind. rewrite badge_row_eq, Hcols. simpl.
  by rewrite Hname, Hfind.
Qed.

(** C1, at a page the code can receive.  The page has no "Paldea League"
    heading and three rows, the second without a bold element or span.  The
    extractor returns the first row only and prints the handler's line: the
    unnamed row is not emitted with the text of its cell, and the row after
    it is lost too. *)
Theorem unnamed_badge_without_paldea_heading :
  Soup.find "h2" [AttrIs "id" "Paldea_League"] page_without_paldea = None
  ∧ scrape_gym_badges (λ _, Page page_without_paldea) gym_badges_url =
    (Val [Item "A" (Some "https://pokemon.fandom.com/b.png") EmptyString],
     ["An unexpected error occurred during scraping: "
      +:+ "'NoneType' object has no attribute 'find_next_sibling'"]).
Proof. split; vm_compute; reflexivity. Qed.

End Badges.

(** ** The names of the records *)

Section Names.

(** C4, as stated, fails: a ribbon row whose name cell holds only
    whitespace is emitted with the empty name. *)
Lemma empty_name_counterexample :
  ∃ l out r,
    scrape_pokemon_ribbons sample_net ribbons_page_url = (Val l, out)
    ∧ r ∈ l ∧ name r = EmptyString.
Proof.
  eexists _, _, (Item EmptyString (Some "http://x/y.png") "Two  words").
  split; [vm_compute; reflexivity|]. split; [|done].
  apply list_elem_of_further, list_elem_of_here.
Qed.

(** C4, as the code has it.  A record of the ribbon extractor comes from a
    row of the table after the first and its name is the stripped text of the
    second cell of that row.  A record of the badge extractor comes from a row
    after the first of a table it reads and its name is the name of the info
    cell of that row, which is the placeholder "Unnamed Badge" when the cell
    has neither a bold element nor a span with an id, and which is empty
    exactly when that element has no text but whitespace.  On a page that has
    the "Paldea League" heading every such row with two cells is emitted, a
    row without a name under the placeholder: none is left out. *)
Theorem emitted_names net url l out :
  (scrape_pokemon_ribbons net url = (Val l, out) →
     ∀ r, r ∈ l →
     ∃ soup ribbon_table row image_column name_column description_column rest,
       net url = Page soup
       ∧ Soup.find "table" [HasClass "dextable"] soup = Some ribbon_table
       ∧ row ∈ drop 1 (Soup.find_all "tr" [] (here ribbon_table))
       ∧ Soup.find_all "td" [] (here row)
         = image_column :: name_column :: description_column :: rest
       ∧ name r = Soup.get_text EmptyString true (here name_column))
  ∧ (scrape_gym_badges net url = (Val l, out) →
     (∀ r, r ∈ l →
      ∃ soup table row image_column info_column rest,
        net url = Page soup
        ∧ table ∈ relevant_tables soup
        ∧ row ∈ drop 1 (Soup.find_all "tr" [] table)
        ∧ Soup.find_all "td" [] (here row)
          = image_column :: info_column :: rest
        ∧ name r = badge_name (here info_column)
        ∧ (name_source (here info_column) = None → name r = "Unnamed Badge")
        ∧ (name r = EmptyString ↔
           name_source (here info_column) = Some EmptyString))
     ∧ (∀ soup heading table row image_column info_column rest,
          net url = Page soup →
          Soup.find "h2" [AttrIs "id" "Paldea_League"] soup = Some heading →
          table ∈ relevant_tables soup →
          row ∈ drop 1 (Soup.find_all "tr" [] table) →
          Soup.find_all "td" [] (here row)
          = image_column :: info_column :: rest →
          ∃ r, r ∈ l
               ∧ name r = badge_name (here info_column)
               ∧ image_url r = badge_image_url (here image_column)
               ∧ (name_source (here info_column) = None →
                  name r = "Unnamed Badge"))).
Proof.
  split.
  - rewrite scrape_pokemon_ribbons_eq. intros H r Hr.
    destruct (net url) as [e|soup].
    { destruct e; injection H as <- _; by apply elem_of_nil in Hr. }
    destruct (Soup.find "table" [HasClass "dextable"] soup) as [t|] eqn:Ht.
    2: { injection H as <- _. by apply elem_of_nil in Hr. }
    injection H as <- _.
    apply list_elem_of_omap in Hr as (row & Hin & Hrow).
    unfold ribbon_row_item in Hrow.
    destruct (Soup.find_all "td" [] (here row)) as [|c0 [|c1 [|c2 rest]]] eqn:Hc;
      try discriminate.
    injection Hrow as <-. by exists soup, t, row, c0, c1, c2, rest.
  - intros H. split.
    + intros r Hr.
      destruct (scrape_gym_badges_appends net url) as (l' & out' & H' & Hall).
      rewrite H in H'. injection H' as <- <-.
      rewrite Forall_forall in Hall.
      destruct (Hall r Hr)
        as (soup & Hnet & table & row & Ht & Hrow & c0 & c1 & rest & Hc & Hn & _).
      rewrite badge_rows_drop in Hrow.
      exists soup, table, row, c0, c1, rest. rewrite Hn.
      repeat (split; [done|]). split.
      * rewrite badge_name_source. by intros ->.
      * apply badge_name_empty.
    + intros soup heading table row c0 c1 rest Hnet Hh Ht Hrow Hc.
      rewrite scrape_gym_badges_eq, Hnet, Hh in H. injection H as <- _.
      destruct (badge_row_item_name heading row c0 c1 rest Hc) as [d Hd].
      eexists. split.
      * apply list_elem_of_omap. exists row. split; [|exact Hd].
        rewrite rows_read_after_header. unfold rows_after_header.
        apply list_elem_of_In, List.in_concat.
        exists (drop 1 (Soup.find_all "tr" [] table)).
        split; [|by apply list_elem_of_In].
        apply list_elem_of_In.
        by apply (list_elem_of_fmap_2
                    (λ table, drop 1 (Soup.find_all "tr" [] table))).
      * simpl. repeat (split; [done|]).
        rewrite badge_name_source. by intros ->.
Qed.

Lemma emitted_names_witness :
  ∃ r, r ∈ paldea_records
       ∧ name r = badge_name (Tag "td" ∅ [Text "Mystery"])
       ∧ image_url r = badge_image_url badge_image_cell
       ∧ (name_source (Tag "td" ∅ [Text "Mystery"]) = None →
          name r = "Unnamed Badge").
Proof.
  refine (proj2 (proj2 (emitted_names (λ _, Page paldea_page) gym_badges_url
                          paldea_records []) _)
            paldea_page paldea_heading paldea_table
            (Element (badge_tr [Text "Mystery"]) [])
            (Element badge_image_cell [Tag "td" ∅ [Text "Mystery"]])
            (Element (Tag "td" ∅ [Text "Mystery"]) []) [] _ _ _ _ _);
    try (vm_compute; reflexivity).
  - apply list_elem_of_In. vm_compute. by left.
  - apply list_elem_of_In. vm_compute. right. right. by left.
Defined.

End Names.

(** ** The driver *)

Section Driver.




End Driver.

(** * Further properties *)

(** ** The badge extractor, row by row *)

Section BadgeRows.



(** X2.  On a page that has the "Paldea League" heading the badge extractor
    returns, in document order, one record for each [tr] after the first of
    each table it reads that has at least two cells, and prints nothing; the
    first [tr] of a table is never read.  An unnamed row takes the text of the
    first paragraph among the later siblings of the heading, else the text of
    its own cell. *)
Theorem badges_one_record_per_row net url soup heading :
  net url = Page soup →
  Soup.find "h2" [AttrIs "id" "Paldea_League"] soup = Some heading →
  scrape_gym_badges net url =
    (Val (omap (badge_row_item (Some heading))
            (concat ((λ table, drop 1 (Soup.find_all "tr" [] table))
                       <$> relevant_tables soup))), [])
  ∧ (∀ row, is_Some (badge_row_item (Some heading) row) ↔
            2 ≤ length (Soup.find_all "td" [] (here row))).
Proof.
  intros Hnet Hh.
  rewrite scrape_gym_badges_eq, Hnet, Hh, rows_read_after_header.
  split; [done|].
  intros row. unfold badge_row_item.
  destruct (Soup.find_all "td" [] (here row)) as [|c0 [|c1 rest]]; simpl.
  - split; [by intros [] | lia].
  - split; [by intros [] | lia].
  - split; [lia|]. intros _. case_bool_decide; simpl; eauto.
Qed.

Lemma badges_one_record_per_row_witness :
  scrape_gym_badges (λ _, Page paldea_page) gym_badges_url =
  (Val [Item "Boulder Badge" (Some "https://pokemon.fandom.com/b.png")
          "is given out at Pewter City Gym.";
        Item "Unnamed Badge" (Some "https://pokemon.fandom.com/b.png")
          "Paldea text"], []).
Proof.
  refine (eq_trans
            (proj1 (badges_one_record_per_row (λ _, Page paldea_page)
                      gym_badges_url paldea_page paldea_heading _ _)) _);
    vm_compute; reflexivity.
Defined.

(** X3.  On a page without the "Paldea League" heading the badge extractor
    returns the records of the rows before the first unnamed row, and nothing
    of that row or of any later row or table; it prints the line of the broad
    handler exactly when there is an unnamed row. *)
Theorem badges_stop_at_first_unnamed_row net url soup :
  net url = Page soup →
  Soup.find "h2" [AttrIs "id" "Paldea_League"] soup = None →
  scrape_gym_badges net url =
  (Val (omap (badge_row_item None) (before_first unnamed_row (rows_read soup))),
   if existsb unnamed_row (rows_read soup) then [scraping_failed] else []).
Proof.
  intros Hnet Hh. by rewrite scrape_gym_badges_eq, Hnet, Hh.
Qed.

Lemma badges_stop_at_first_unnamed_row_witness :
  scrape_gym_badges (λ _, Page cut_short_page) gym_badges_url =
  (Val [Item "Boulder Badge" (Some "https://pokemon.fandom.com/b.png")
          "is given out at Pewter City Gym."],
   [scraping_failed]).
Proof.
  refine (badges_stop_at_first_unnamed_row (λ _, Page cut_short_page)
            gym_badges_url cut_short_page _ _);
    vm_compute; reflexivity.
Defined.

End BadgeRows.

(** ** The choice of tables *)

Section Tables.

Lemma walk_unfold anime current rest :
  walk anime current rest =
  if Soup.node_eqb current anime then []
  else table_of current ++
       match rest with
       | [] => []
       | next :: rest' =>
           if Soup.named "h3" next then sweep anime rest'
           else walk anime next rest'
       end.
Proof. by destruct rest. Qed.

Lemma node_eqb_name a b :
  Soup.node_eqb a b = true → Soup.tag_name a = Soup.tag_name b.
Proof.
  destruct a as [s|n1 a1 c1], b as [t|n2 a2 c2]; simpl; try done.
  intros [[H _]%andb_true_iff _]%andb_true_iff.
  by apply bool_decide_eq_true in H as ->.
Qed.

Lemma node_eqb_attr a b k :
  Soup.node_eqb a b = true → Soup.attr k a = Soup.attr k b.
Proof.
  destruct a as [s|n1 a1 c1], b as [t|n2 a2 c2]; simpl; try done.
  intros [[_ H]%andb_true_iff _]%andb_true_iff.
  by apply bool_decide_eq_true in H as ->.
Qed.

Lemma named_name nm n : Soup.named nm n = true ↔ Soup.tag_name n = Some nm.
Proof. unfold Soup.named. apply bool_decide_eq_true. Qed.

Lemma find_matches nm tests n e :
  Soup.find nm tests n = Some e → Soup.matches nm tests (here e) = true.
Proof.
  unfold Soup.find, Soup.find_all. intros H.
  assert (In e (List.filter (λ e, Soup.matches nm tests (here e))
                  (Soup.descendants n))) as Hin.
  { destruct (List.filter _ _); simplify_eq/=. by left. }
  by apply List.filter_In in Hin as [_ ?].
Qed.

Lemma table_of_filter n : table_of n = List.filter (Soup.named "table") [n].
Proof. unfold table_of. simpl. by destruct (Soup.named "table" n). Qed.

(** The two loops of lines 100-112 together take the tables among the
    current tag and the tags after it, up to the first one equal to the anime
    heading: sweeping under a third-level heading adds nothing to that. *)
Lemma walk_eq anime :
  Soup.named "h2" anime = true →
  ∀ rest current,
    walk anime current rest =
    List.filter (Soup.named "table")
      (before_first (λ n, Soup.node_eqb n anime) (current :: rest)).
Proof.
  intros Hanime%named_name.
  assert (∀ n nm, nm ≠ "h2" → Soup.named nm n = true →
                  Soup.node_eqb n anime = false) as Hother.
  { intros n nm Hnm Hn%named_name.
    destruct (Soup.node_eqb n anime) eqn:E; [|done].
    apply node_eqb_name in E. congruence. }
  assert (∀ n, Soup.named "h2" n = false → Soup.node_eqb n anime = false)
    as Hnot.
  { intros n Hn. destruct (Soup.node_eqb n anime) eqn:E; [|done].
    apply node_eqb_name in E. rewrite Hanime in E.
    apply named_name in E. congruence. }
  intros rest.
  induction rest as [rest IH] using (induction_ltof1 _ (@length node)).
  unfold ltof in IH. intros current. rewrite walk_unfold.
  cbn [before_first]. destruct (Soup.node_eqb current anime); [done|].
  change (current :: ?l) with ([current] ++ l).
  rewrite List.filter_app, <- table_of_filter. f_equal.
  destruct rest as [|next rest']; [done|].
  destruct (Soup.named "h3" next) eqn:Hh3; [|apply IH; simpl; lia].
  cbn [before_first]. rewrite (Hother next "h3") by done.
  cbn [List.filter].
  assert (Soup.named "table" next = false) as ->.
  { apply named_name in Hh3. destruct (Soup.named "table" next) eqn:E; [|done].
    apply named_name in E. congruence. }
  assert (∀ temp, length temp ≤ length rest' →
            sweep anime temp =
            List.filter (Soup.named "table")
              (before_first (λ n, Soup.node_eqb n anime) temp)) as Hsweep.
  { induction temp as [|t temp IHt]; intros Hlen; [done|].
    change (sweep anime (t :: temp)) with
      (if negb (Soup.named "h2" t) && negb (Soup.named "h3" t)
       then table_of t ++ sweep anime temp else walk anime t temp).
    destruct (Soup.named "h2" t) eqn:Ht2; simpl.
    { apply IH. simpl in *. lia. }
    destruct (Soup.named "h3" t) eqn:Ht3; simpl.
    { apply IH. simpl in *. lia. }
    rewrite (Hnot t) by done. change (t :: ?l) with ([t] ++ l).
    rewrite List.filter_app, <- table_of_filter. f_equal.
    apply IHt. simpl in Hlen. lia. }
  by apply Hsweep.
Qed.

(** X4.  On a page with both headings the tables read are the [table] tags
    among the later siblings of the "Indigo League" heading, up to the first
    sibling equal to the anime heading, whatever their class and whether or
    not they stand under a third-level heading; tables behind that sibling,
    before the start heading or nested deeper are left out. *)
Theorem relevant_tables_between soup anime_exclusive_heading start_element :
  Soup.find "h2" [AttrIs "id" "Anime_exclusive"] soup
    = Some anime_exclusive_heading →
  Soup.find "h2" [AttrIs "id" "Indigo_League"] soup = Some start_element →
  relevant_tables soup =
  List.filter (Soup.named "table")
    (before_first (λ n, Soup.node_eqb n (here anime_exclusive_heading))
       (later_tags start_element)).
Proof.
  intros Hanime Hstart. unfold relevant_tables. rewrite Hanime, Hstart.
  apply find_matches in Hanime, Hstart.
  unfold Soup.matches in *. simpl in *.
  apply andb_true_iff in Hanime as [Ha Hida], Hstart as [Hs Hids].
  rewrite andb_true_r in Hida, Hids.
  apply bool_decide_eq_true in Hida, Hids.
  rewrite walk_eq by done. cbn [before_first].
  destruct (Soup.node_eqb (here start_element) (here anime_exclusive_heading))
    eqn:E.
  { apply (node_eqb_attr _ _ "id") in E. congruence. }
  cbn [List.filter].
  assert (Soup.named "table" (here start_element) = false) as ->; [|done].
  apply named_name in Hs.
  destruct (Soup.named "table" (here start_element)) eqn:E'; [|done].
  apply named_name in E'. congruence.
Qed.

Lemma relevant_tables_between_witness :
  relevant_tables leagues_page =
  List.filter (Soup.named "table")
    (before_first (λ n, Soup.node_eqb n (h2 "Anime_exclusive"))
       (List.filter is_tag
          (List.skipn 2
             (match leagues_page with Tag _ _ cs => cs | Text _ => [] end)))).
Proof.
  refine (relevant_tables_between leagues_page
            (Element (h2 "Anime_exclusive")
               [badge_table [badge_tr [Tag "b" ∅ [Text "Anime"]]]])
            (Element (h2 "Indigo_League")
               (List.skipn 2
                  (match leagues_page with Tag _ _ cs => cs | Text _ => [] end)))
            _ _);
    vm_compute; reflexivity.
Defined.

End Tables.

(** ** The image of a row *)

Section Images.

Lemma ribbons_base_http u :
  Str.startswith (ribbons_base +:+ u) "http" = true.
Proof. reflexivity. Qed.

Lemma badges_base_http u :
  Str.startswith (badges_base +:+ u) "http" = true.
Proof. reflexivity. Qed.

(** X5.  The record at place [i] of the result of the ribbon extractor comes
    from the row at place [i] among the rows after the first that have three
    cells.  Its image address starts with "http", or is none: none exactly
    when the first cell of that row has no image or its first image has no
    [src]. *)
Theorem ribbon_images_absolute net url l out i r :
  scrape_pokemon_ribbons net url = (Val l, out) → l !! i = Some r →
  ∃ soup ribbon_table row image_column name_column description_column rest,
    net url = Page soup
    ∧ Soup.find "table" [HasClass "dextable"] soup = Some ribbon_table
    ∧ List.filter full_row (drop 1 (Soup.find_all "tr" [] (here ribbon_table)))
      !! i = Some row
    ∧ Soup.find_all "td" [] (here row)
      = image_column :: name_column :: description_column :: rest
    ∧ name r = Soup.get_text EmptyString true (here name_column)
    ∧ description r = Soup.get_text " " true (here description_column)
    ∧ (image_url r = None ↔
       from_option (λ img_tag, Soup.attr "src" (here img_tag)) None
         (Soup.find "img" [] (here image_column)) = None)
    ∧ match image_url r with
      | Some u => Str.startswith u "http" = true
      | None => True
      end.
Proof.
  rewrite scrape_pokemon_ribbons_eq. intros H Hi.
  destruct (net url) as [e|soup].
  { destruct e; injection H as <- _; done. }
  destruct (Soup.find "table" [HasClass "dextable"] soup) as [t|] eqn:Ht.
  2: { injection H as <- _. done. }
  injection H as <- _.
  apply omap_lookup_full in Hi as (row & Hrow & Hitem).
  unfold ribbon_row_item in Hitem.
  destruct (Soup.find_all "td" [] (here row)) as [|c0 [|c1 [|c2 rest]]] eqn:Hc;
    try discriminate.
  injection Hitem as <-.
  exists soup, t, row, c0, c1, c2, rest.
  repeat (split; [done|]). simpl. unfold ribbon_image_url.
  destruct (Soup.find "img" [] (here c0)) as [im|]; simpl; [|done].
  destruct (Soup.attr "src" (here im)) as [u|]; [|done].
  destruct (Str.startswith u "http") eqn:E; simpl; [done|].
  split; [done|]. exact (ribbons_base_http u).
Qed.

Lemma ribbon_images_absolute_witness :
  ∃ soup ribbon_table row image_column name_column description_column rest,
    sample_net ribbons_page_url = Page soup
    ∧ Soup.find "table" [HasClass "dextable"] soup = Some ribbon_table
    ∧ List.filter full_row (drop 1 (Soup.find_all "tr" [] (here ribbon_table)))
      !! 1 = Some row
    ∧ Soup.find_all "td" [] (here row)
      = image_column :: name_column :: description_column :: rest
    ∧ EmptyString = Soup.get_text EmptyString true (here name_column)
    ∧ "Two  words" = Soup.get_text " " true (here description_column)
    ∧ (Some "http://x/y.png" = None ↔
       from_option (λ img_tag, Soup.attr "src" (here img_tag)) None
         (Soup.find "img" [] (here image_column)) = None)
    ∧ Str.startswith "http://x/y.png" "http" = true.
Proof.
  refine (ribbon_images_absolute sample_net ribbons_page_url
            [Item "Champion Ribbon"
               (Some "https://www.serebii.net/games//img/r1.png")
               "Won the league.";
             Item EmptyString (Some "http://x/y.png") "Two  words"]
            [] 1 (Item EmptyString (Some "http://x/y.png") "Two  words") _ _).
  - vm_compute; reflexivity.
  - reflexivity.
Defined.

(** The image of a badge row: the [data-src] of the image wins over its
    [src] whenever it is there, and the value is put behind the base unless it
    is empty or starts with "http". *)
Lemma badge_image_url_cases image_column :
  badge_image_url image_column = None
  ∨ badge_image_url image_column = Some EmptyString
  ∨ ∃ u, badge_image_url image_column = Some u
         ∧ Str.startswith u "http" = true.
Proof.
  unfold badge_image_url.
  destruct (Soup.find "img" [HasClass "mw-file-element"] image_column) as [i|];
    [|by left].
  cbv zeta.
  generalize (match Soup.attr "data-src" (here i) with
              | Some v => Some v
              | None => Soup.attr "src" (here i)
              end).
  intros [u|]; [|by left]. right.
  destruct u as [|c u]; [by left|]. right.
  cbn [Str.nonempty andb].
  destruct (Str.startswith (String c u) "http") eqn:E; cbn [negb].
  - by exists (String c u).
  - exists (badges_base +:+ String c u). split; [done|].
    exact (badges_base_http (String c u)).
Qed.

(** X6.  Every record of the badge extractor comes from a row of a table that
    is read, and its image address is made from the image of the first cell
    of that row alone: none without an image of class [mw-file-element] or
    without a [data-src] and a [src]; else the [data-src], or the [src] when
    there is no [data-src], kept as it is when it is empty or starts with
    "http" and put behind "https://pokemon.fandom.com" otherwise.  So the
    address is absent, empty or starts with "http". *)
Theorem badge_images_absolute net url l out r :
  scrape_gym_badges net url = (Val l, out) → r ∈ l →
  ∃ soup table row image_column info_column rest,
    net url = Page soup
    ∧ table ∈ relevant_tables soup
    ∧ row ∈ drop 1 (Soup.find_all "tr" [] table)
    ∧ Soup.find_all "td" [] (here row) = image_column :: info_column :: rest
    ∧ name r = badge_name (here info_column)
    ∧ image_url r = image_address (here image_column)
    ∧ (image_url r = None
       ∨ image_url r = Some EmptyString
       ∨ ∃ u, image_url r = Some u ∧ Str.startswith u "http" = true).
Proof.
  intros H Hr.
  destruct (scrape_gym_badges_appends net url) as (l' & out' & H' & Hall).
  rewrite H in H'. injection H' as <- <-.
  rewrite Forall_forall in Hall.
  destruct (Hall r Hr)
    as (soup & Hnet & table & row & Ht & Hrow & c0 & c1 & rest & Hc & Hn & Hi).
  rewrite badge_rows_drop in Hrow.
  exists soup, table, row, c0, c1, rest.
  repeat (split; [done|]). split.
  - by rewrite Hi, badge_image_address.
  - rewrite Hi. apply badge_image_url_cases.
Qed.

Lemma badge_images_absolute_witness :
  ∃ soup table row image_column info_column rest,
    Page page_without_paldea = Page soup
    ∧ table ∈ relevant_tables soup
    ∧ row ∈ drop 1 (Soup.find_all "tr" [] table)
    ∧ Soup.find_all "td" [] (here row) = image_column :: info_column :: rest
    ∧ "A" = badge_name (here info_column)
    ∧ Some "https://pokemon.fandom.com/b.png"
      = image_address (here image_column)
    ∧ (Some "https://pokemon.fandom.com/b.png" = None
       ∨ Some "https://pokemon.fandom.com/b.png" = Some EmptyString
       ∨ ∃ u, Some "https://pokemon.fandom.com/b.png" = Some u
              ∧ Str.startswith u "http" = true).
Proof.
  refine (badge_images_absolute (λ _, Page page_without_paldea) gym_badges_url
            [Item "A" (Some "https://pokemon.fandom.com/b.png") EmptyString]
            [scraping_failed]
            (Item "A" (Some "https://pokemon.fandom.com/b.png") EmptyString)
            _ _).
  - vm_compute; reflexivity.
  - apply list_elem_of_here.
Defined.

End Images.

(** ** The driver and the dump *)

Section DriverRuns.





(** X9.  Running the driver a second time on the same pages leaves the
    files as the first run left them. *)
Theorem main_rerun_same_files encodes net w :
  files (main encodes net (main encodes net w).2).2
  = files (main encodes net w).2.
Proof.
  destruct (main_run encodes net w)
    as (badges & out_b & ribbons & out_r & Hb & Hr & ->).
  destruct (badges_printable encodes badges) eqn:Hp; cbn [snd].
  - match goal with
    | |- files (main encodes net ?w1).2 = _ =>
        destruct (main_run encodes net w1)
          as (badges' & out_b' & ribbons' & out_r' & Hb' & Hr' & ->)
    end.
    rewrite Hb in Hb'. rewrite Hr in Hr'.
    injection Hb' as <- <-. injection Hr' as <- <-.
    rewrite Hp. cbn [snd files].
    destruct badges as [|b badges], ribbons as [|r ribbons];
      cbn [saved]; try done;
      apply map_eq; intros k; rewrite !lookup_insert;
      repeat case_decide; done.
  - match goal with
    | |- files (main encodes net ?w1).2 = _ =>
        destruct (main_run encodes net w1)
          as (badges' & out_b' & ribbons' & out_r' & Hb' & Hr' & ->)
    end.
    rewrite Hb in Hb'. injection Hb' as <- <-. by rewrite Hp.
Qed.

(** X10.  The dump of the ribbons, made with the default [ensure_ascii],
    holds only printable ASCII characters and line feeds, whatever text the
    page had. *)
Theorem ribbons_dump_ascii l : all_chars plain (Json.dumps true l) = true.
Proof.
  unfold Json.dumps. destruct l as [|r l]; [done|].
  rewrite !all_chars_app, concat_all_chars; [done..|].
  apply Forall_fmap, Forall_forall. intros r' _. apply object_plain.
Qed.

End DriverRuns.

(** ** The texts of the records *)

Section Texts.

Implicit Types s t w sub : string.

Lemma lstrip_starts_clean s : starts_clean (Str.lstrip s).
Proof.
  induction s as [|c s IH]; simpl; [done|].
  by destruct (Str.isspace c) eqn:E.
Qed.

Lemma lstrip_fixed s : starts_clean s → Str.lstrip s = s.
Proof. destruct s as [|c s]; simpl; [done|]. by intros ->. Qed.

Lemma rstrip_fixed s : ends_clean s → Str.rstrip s = s.
Proof.
  unfold ends_clean. induction s as [|c s IH]; simpl; [done|].
  destruct (last_char s) as [x|] eqn:E.
  - intros H. rewrite IH by done. by destruct s.
  - apply last_char_none in E as ->. simpl. by intros ->.
Qed.

Lemma strip_fixed s : trimmed s → Str.strip s = s.
Proof.
  intros [Hs He]. unfold Str.strip. by rewrite rstrip_fixed, lstrip_fixed.
Qed.

Lemma strip_trimmed s : trimmed (Str.strip s).
Proof. split; [apply lstrip_starts_clean | apply strip_clean]. Qed.

Lemma starts_clean_app s t :
  s ≠ EmptyString → starts_clean s → starts_clean (s +:+ t).
Proof. by destruct s. Qed.

Lemma ends_clean_app s t :
  t ≠ EmptyString → ends_clean t → ends_clean (s +:+ t).
Proof.
  unfold ends_clean. intros Ht H. rewrite last_char_app.
  destruct (last_char t) eqn:E; [done|]. by apply last_char_none in E.
Qed.

Lemma join_nonempty sep h l :
  h ≠ EmptyString → Str.join sep (h :: l) ≠ EmptyString.
Proof.
  unfold Str.join. simpl. destruct l; [done|]. by destruct h.
Qed.

(** Pieces without whitespace at their ends, none of them empty, give a
    text without whitespace at its ends, whatever the separator. *)
Lemma join_trimmed sep l :
  Forall (λ s, s ≠ EmptyString ∧ trimmed s) l → trimmed (Str.join sep l).
Proof.
  induction 1 as [|h t [Hh [Hs He]] Ht IH]; [done|].
  unfold Str.join in *. cbn [String.concat]. destruct t as [|h' t]; [done|].
  split.
  - by apply starts_clean_app.
  - rewrite <- app_assoc'. apply ends_clean_app; [|apply IH].
    inversion Ht as [|? ? [Hh' _] _]; subst.
    by apply (join_nonempty sep h' t).
Qed.

Lemma nonempty_true s : Str.nonempty s = true ↔ s ≠ EmptyString.
Proof. by destruct s. Qed.

Lemma get_text_trimmed sep n : trimmed (Soup.get_text sep true n).
Proof.
  unfold Soup.get_text, Soup.stripped_strings. apply join_trimmed.
  apply List.Forall_forall. intros s [Hs Hne]%List.filter_In.
  apply List.in_map_iff in Hs as (t & <- & _).
  split; [by apply nonempty_true | apply strip_trimmed].
Qed.

(** X11.  The name and the description of every record of the ribbon
    extractor are texts without whitespace at either end: stripping them
    again changes nothing. *)
Theorem ribbon_texts_trimmed net url l out r :
  scrape_pokemon_ribbons net url = (Val l, out) → r ∈ l →
  Str.strip (name r) = name r ∧ Str.strip (description r) = description r.
Proof.
  rewrite scrape_pokemon_ribbons_eq. intros H Hr.
  assert (∃ rows, l = omap ribbon_row_item rows) as [rows ->].
  { revert H. destruct (net url) as [[]|soup];
      try (intros [= <- <-]; by exists []).
    destruct (Soup.find _ _ soup); intros [= <- <-]; [by eexists | by exists []]. }
  apply list_elem_of_omap in Hr as (row & _ & Hrow).
  unfold ribbon_row_item in Hrow.
  destruct (Soup.find_all "td" [] (here row)) as [|c0 [|c1 [|c2 rest]]];
    try discriminate.
  injection Hrow as <-. simpl. split; apply strip_fixed, get_text_trimmed.
Qed.

Lemma ribbon_texts_trimmed_witness :
  Str.strip "Two  words" = "Two  words".
Proof.
  refine (proj2 (ribbon_texts_trimmed sample_net ribbons_page_url
                   [Item "Champion Ribbon"
                      (Some "https://www.serebii.net/games//img/r1.png")
                      "Won the league.";
                    Item EmptyString (Some "http://x/y.png") "Two  words"]
                   []
                   (Item EmptyString (Some "http://x/y.png") "Two  words") _ _)).
  - vm_compute; reflexivity.
  - apply list_elem_of_further, list_elem_of_here.
Defined.

Lemma word_char_app p s c :
  all_chars p (s +:+ String c EmptyString) = all_chars p s && p c.
Proof. rewrite all_chars_app. simpl. by rewrite andb_true_r. Qed.

Lemma app_nonempty_r s t : t ≠ EmptyString → s +:+ t ≠ EmptyString.
Proof. destruct s; [done|]. by rewrite app_cons. Qed.

(** [split] gives words. *)
Lemma split_go_words cur s :
  from_option is_word True cur → Forall is_word (Str.split_go cur s).
Proof.
  revert cur. induction s as [|c s IH]; intros cur Hcur; simpl.
  - destruct cur; simpl; [by apply Forall_singleton | done].
  - destruct (Str.isspace c) eqn:E.
    + apply Forall_app. split; [|by apply IH].
      destruct cur; simpl; [by apply Forall_singleton | done].
    + apply IH. simpl. split; [by apply app_nonempty_r|].
      rewrite word_char_app, E. simpl. rewrite andb_true_r.
      destruct cur as [w|]; simpl; [apply Hcur | done].
Qed.

Lemma split_words s : Forall is_word (Str.split s).
Proof. by apply split_go_words. Qed.

Lemma split_go_word cur w s :
  is_word w →
  Str.split_go cur (w +:+ s)
  = Str.split_go (Some (default EmptyString cur +:+ w)) s.
Proof.
  intros [Hne Hw]. revert cur Hne Hw.
  induction w as [|c w IH]; intros cur Hne Hw; [done|].
  rewrite app_cons. simpl in *. apply andb_true_iff in Hw as [Hc Hw].
  apply negb_true_iff in Hc. rewrite Hc.
  destruct w as [|d w].
  - by rewrite app_nil.
  - rewrite IH by done. simpl. by rewrite app_assoc'.
Qed.

(** Splitting the words joined by single spaces gives the words back. *)
Lemma split_join ws :
  Forall is_word ws → Str.split (Str.join " " ws) = ws.
Proof.
  unfold Str.split, Str.join.
  induction 1 as [|w ws Hw Hws IH]; [done|].
  cbn [String.concat]. destruct ws as [|w' ws].
  - rewrite <- (app_empty_r w) at 1. rewrite split_go_word by done.
    simpl. by rewrite app_nil.
  - rewrite split_go_word by done.
    change (" " +:+ ?x) with (String " " x). simpl. rewrite app_nil.
    f_equal. apply IH.
Qed.

Lemma word_trimmed w : is_word w → w ≠ EmptyString ∧ trimmed w.
Proof.
  intros [Hne Hw]. split; [done|]. split.
  - destruct w as [|c w]; [done|]. simpl in *.
    by apply andb_true_iff in Hw as [->%negb_true_iff _].
  - unfold ends_clean. clear Hne. induction w as [|c w IH]; [done|].
    simpl in *. apply andb_true_iff in Hw as [Hc%negb_true_iff Hw].
    destruct (last_char w); [by apply IH | done].
Qed.

Lemma clean_description_normal_strip badge_name full_info_text :
  Str.strip (clean_description badge_name full_info_text)
  = clean_description badge_name full_info_text.
Proof.
  unfold clean_description. cbv zeta. apply strip_fixed, join_trimmed.
  eapply Forall_impl; [apply split_words|]. apply word_trimmed.
Qed.

(** X12.  The description worked out by the cleanup chain is in normal form:
    words separated by single spaces, no other whitespace, none at the ends.
    Collapsing its whitespace or stripping it again changes nothing. *)
Theorem clean_description_normal badge_name full_info_text :
  let d := clean_description badge_name full_info_text in
  Str.join " " (Str.split d) = d
  ∧ Str.strip d = d
  ∧ ∃ words, Forall is_word words ∧ d = Str.join " " words.
Proof.
  unfold clean_description.
  set (x := if Str.startswith _ "is given out at" then _ else _).
  cbv zeta. pose proof (split_words x) as Hw. split; [|split].
  - by rewrite split_join.
  - apply strip_fixed, join_trimmed.
    eapply Forall_impl; [exact Hw|]. apply word_trimmed.
  - by exists (Str.split x).
Qed.

(** X13.  The description of every record of the badge extractor is a text
    without whitespace at either end, whichever way it was made: by the
    cleanup chain, from the paragraph behind the "Paldea League" heading, or
    from the text of the info cell. *)
Theorem badge_descriptions_trimmed net url l out r :
  scrape_gym_badges net url = (Val l, out) → r ∈ l →
  Str.strip (description r) = description r.
Proof.
  rewrite scrape_gym_badges_eq. intros H Hr.
  assert (∃ heading rows, l = omap (badge_row_item heading) rows)
    as (heading & rows & ->).
  { revert H. destruct (net url) as [[]|soup];
      try (intros [= <- <-]; by exists None, []).
    destruct (Soup.find _ _ soup); intros [= <- <-]; by eexists _, _. }
  apply list_elem_of_omap in Hr as (row & _ & Hrow).
  unfold badge_row_item in Hrow.
  destruct (Soup.find_all "td" [] (here row)) as [|c0 [|c1 rest]];
    try discriminate.
  cbv zeta in Hrow. case_bool_decide.
  - destruct heading as [h|]; [|discriminate]. injection Hrow as <-. simpl.
    unfold unnamed_description.
    destruct (Soup.find_next_sibling (Some "p") h);
      apply strip_fixed, get_text_trimmed.
  - injection Hrow as <-. simpl. apply clean_description_normal_strip.
Qed.

Lemma badge_descriptions_trimmed_witness :
  Str.strip "Paldea text" = "Paldea text".
Proof.
  refine (badge_descriptions_trimmed (λ _, Page paldea_page) gym_badges_url
            [Item "Boulder Badge" (Some "https://pokemon.fandom.com/b.png")
               "is given out at Pewter City Gym.";
             Item "Unnamed Badge" (Some "https://pokemon.fandom.com/b.png")
               "Paldea text"]
            []
            (Item "Unnamed Badge" (Some "https://pokemon.fandom.com/b.png")
               "Paldea text") _ _).
  - vm_compute; reflexivity.
  - apply list_elem_of_further, list_elem_of_here.
Defined.

End Texts.

(** ** The marker "Abilities:" *)

Section Marker.

Implicit Types s t w sub : string.

Lemma prefix_app sub t : String.prefix sub (sub +:+ t) = true.
Proof.
  induction sub as [|c sub IH]; [by destruct t|].
  rewrite app_cons. simpl. by destruct (ascii_dec c c).
Qed.

Lemma find_prefix sub s :
  String.prefix sub s = true → Str.find s sub = Some 0.
Proof.
  intros H. destruct s as [|c s].
  - change (Str.find EmptyString sub)
      with (if String.prefix sub EmptyString then Some 0 else None).
    by rewrite H.
  - by rewrite find_cons, H.
Qed.

Lemma occurs_find sub s : occurs sub s → Str.find s sub ≠ None.
Proof.
  intros (a & b & ->). induction a as [|c a IH].
  - rewrite app_nil. by rewrite find_prefix by apply prefix_app.
  - rewrite app_cons, find_cons.
    destruct (String.prefix sub _); [done|].
    by destruct (Str.find (a +:+ sub +:+ b) sub).
Qed.

Lemma contains_false sub s : Str.contains s sub = false → ¬ occurs sub s.
Proof.
  unfold Str.contains. intros H Hocc%occurs_find.
  by destruct (Str.find s sub).
Qed.

Lemma occurs_inside sub s l r : occurs sub s → occurs sub (l +:+ s +:+ r).
Proof.
  intros (a & b & ->). exists (l +:+ a), (b +:+ r).
  by rewrite !app_assoc'.
Qed.

Lemma occurs_cons sub c s : occurs sub s → occurs sub (String c s).
Proof. intros (a & b & ->). by exists (String c a), b. Qed.

(** In front of the place [find] gives there is no occurrence. *)
Lemma find_first sub s i :
  sub ≠ EmptyString → Str.find s sub = Some i → ¬ occurs sub (Str.take i s).
Proof.
  intros Hsub. revert i. induction s as [|c s IH]; intros i.
  - destruct sub; [done|]. discriminate.
  - rewrite find_cons. destruct (String.prefix sub (String c s)) eqn:E.
    + intros [= <-]. simpl. intros (a & b & H).
      symmetry in H. apply app_eq_empty in H as [_ H].
      by apply app_eq_empty in H as [? _].
    + destruct (Str.find s sub) as [j|] eqn:F; [|discriminate].
      intros [= <-]. simpl. intros (a & b & H).
      destruct a as [|d a].
      * rewrite app_nil in H.
        assert (String c s = sub +:+ (b +:+ Str.drop j s)) as Hs.
        { rewrite <- app_assoc', <- H, app_cons. by rewrite take_drop. }
        rewrite Hs, prefix_app in E. discriminate.
      * rewrite app_cons in H. injection H as -> H.
        apply (IH j eq_refl). by exists a, b.
Qed.

Lemma lstrip_suffix s : ∃ l, s = l +:+ Str.lstrip s.
Proof.
  induction s as [|c s [l IH]]; [by exists EmptyString|]. simpl.
  destruct (Str.isspace c); [|by exists EmptyString].
  exists (String c l). by rewrite app_cons, <- IH.
Qed.

Lemma rstrip_prefix s : ∃ r, s = Str.rstrip s +:+ r.
Proof.
  induction s as [|c s [r IH]]; [by exists EmptyString|]. simpl.
  destruct (Str.rstrip s) as [|d s'] eqn:E.
  - destruct (Str.isspace c).
    + by exists (String c s).
    + exists s. by rewrite app_cons, app_nil.
  - exists r. by rewrite app_cons, <- IH.
Qed.

Lemma occurs_strip sub s : occurs sub (Str.strip s) → occurs sub s.
Proof.
  unfold Str.strip. intros H.
  destruct (rstrip_prefix s) as [r Hr].
  destruct (lstrip_suffix (Str.rstrip s)) as [l Hl].
  rewrite Hr, Hl, app_assoc'. by apply occurs_inside.
Qed.

(** A word of [split] is a piece of the text. *)
Lemma split_go_piece cur s w :
  w ∈ Str.split_go cur s →
  ∃ l r, default EmptyString cur +:+ s = l +:+ w +:+ r.
Proof.
  revert cur. induction s as [|c s IH]; intros cur; simpl.
  - destruct cur as [x|]; simpl; [|by intros ?%elem_of_nil].
    intros ->%list_elem_of_singleton. exists EmptyString, EmptyString.
    by rewrite app_nil.
  - destruct (Str.isspace c).
    + intros [Hw|Hw]%elem_of_app.
      * destruct cur as [x|]; simpl in *; [|by apply elem_of_nil in Hw].
        apply list_elem_of_singleton in Hw as ->.
        exists EmptyString, (String c s). by rewrite app_nil.
      * destruct (IH None Hw) as (l & r & H). simpl in H. rewrite app_nil in H.
        exists (default EmptyString cur +:+ String c l), r.
        by rewrite H, !app_assoc', app_cons.
    + intros Hw. destruct (IH _ Hw) as (l & r & H). simpl in H.
      exists l, r. rewrite <- H, app_assoc'. by rewrite app_cons, app_nil.
Qed.

Lemma split_piece s w : w ∈ Str.split s → ∃ l r, s = l +:+ w +:+ r.
Proof.
  intros H. destruct (split_go_piece None s w H) as (l & r & E).
  simpl in E. rewrite app_nil in E. eauto.
Qed.

Lemma no_char_prefix (p : ascii → bool) sub x c y b :
  all_chars p sub = true → p c = false →
  sub +:+ b = x +:+ String c y → ∃ b', x = sub +:+ b'.
Proof.
  intros Hsub Hc. revert x. induction sub as [|e sub IH]; intros x H.
  - by exists x.
  - simpl in Hsub. apply andb_true_iff in Hsub as [He Hsub].
    rewrite app_cons in H. destruct x as [|d x].
    + rewrite app_nil in H. injection H as -> _. congruence.
    + rewrite app_cons in H. injection H as -> H.
      destruct (IH Hsub x H) as [b' ->]. by exists b'.
Qed.

(** An occurrence of a text without whitespace does not reach across a
    whitespace character. *)
Lemma occurs_across (p : ascii → bool) sub x c y :
  sub ≠ EmptyString → all_chars p sub = true → p c = false →
  occurs sub (x +:+ String c y) → occurs sub x ∨ occurs sub y.
Proof.
  intros Hne Hsub Hc (a & b & H). revert x H.
  induction a as [|d a IH]; intros x H.
  - rewrite app_nil in H. symmetry in H.
    destruct (no_char_prefix p sub x c y b Hsub Hc H) as [b' ->].
    left. by exists EmptyString, b'.
  - destruct x as [|d' x].
    + rewrite app_nil, app_cons in H. injection H as _ ->.
      right. by exists a, b.
    + rewrite !app_cons in H. injection H as <- H.
      destruct (IH x H) as [Hx|Hy]; [|by right].
      left. by apply occurs_cons.
Qed.

Lemma occurs_join sub ws :
  is_word sub → occurs sub (Str.join " " ws) → ∃ w, w ∈ ws ∧ occurs sub w.
Proof.
  intros [Hne Hsub]. unfold Str.join.
  induction ws as [|w ws IH]; simpl.
  - intros (a & b & H). symmetry in H. apply app_eq_empty in H as [_ H].
    by apply app_eq_empty in H as [? _].
  - destruct ws as [|w' ws].
    + intros H. exists w. split; [apply list_elem_of_here | done].
    + change (" " +:+ ?x) with (String " " x).
      intros H.
      apply (occurs_across (λ c, negb (Str.isspace c)) sub w " ") in H
        as [Hw|Hrest]; [| |done..].
      * exists w. split; [apply list_elem_of_here | done].
      * destruct (IH Hrest) as (v & Hv & Hocc).
        exists v. split; [by apply list_elem_of_further | done].
Qed.

Lemma occurs_collapse sub s :
  is_word sub → occurs sub (Str.join " " (Str.split s)) → occurs sub s.
Proof.
  intros Hsub (w & Hw & Hocc)%occurs_join; [|done].
  destruct (split_piece s w Hw) as (l & r & ->). by apply occurs_inside.
Qed.

Lemma before_marker sub s :
  sub ≠ EmptyString → ¬ occurs sub (hd EmptyString (Str.split1 s sub)).
Proof.
  intros Hne. unfold Str.split1.
  destruct (Str.find s sub) as [i|] eqn:F; simpl.
  - by apply find_first.
  - intros H%occurs_find. done.
Qed.

(** X14.  The description worked out by the cleanup chain never holds the
    marker "Abilities:", whatever the name and the text of the cell. *)
Theorem clean_description_without_marker badge_name full_info_text :
  Str.contains (clean_description badge_name full_info_text) "Abilities:"
  = false.
Proof.
  destruct (Str.contains _ _) eqn:E; [|done]. exfalso.
  assert (occurs "Abilities:" (clean_description badge_name full_info_text))
    as Hocc.
  { unfold Str.contains in E.
    destruct (Str.find _ "Abilities:") as [i|] eqn:F; [|done].
    apply find_split in F. rewrite F. by eexists _, _. }
  clear E. unfold clean_description in Hocc. cbv zeta in Hocc.
  apply occurs_collapse in Hocc; [|by split].
  revert Hocc.
  generalize
    (if Str.nonempty badge_name
        && Str.startswith full_info_text ("The " +:+ badge_name)
     then Str.strip
            (Str.replace full_info_text ("The " +:+ badge_name) EmptyString
               (Some 1))
     else if Str.nonempty badge_name
          then Str.strip
                 (Str.replace full_info_text badge_name EmptyString (Some 1))
          else full_info_text).
  intros d.
  destruct (Str.startswith d "is given out at").
  { intros H%occurs_strip. by apply before_marker in H. }
  destruct (Str.contains d "Abilities:") eqn:E.
  { intros H%occurs_strip. by apply before_marker in H. }
  by apply contains_false.
Qed.

End Marker.

(** ** The chain and the dump, once more *)

Section Chain.

Implicit Types s t w sub : string.

Lemma split_go_lstrip s : Str.split_go None (Str.lstrip s) = Str.split_go None s.
Proof.
  induction s as [|c s IH]; simpl; [done|].
  destruct (Str.isspace c) eqn:E; [done|]. simpl. by rewrite E.
Qed.

Lemma split_go_rstrip cur s :
  Str.split_go cur (Str.rstrip s) = Str.split_go cur s.
Proof.
  revert cur. induction s as [|c s IH]; intros cur; [done|].
  simpl. destruct (Str.rstrip s) as [|d s'] eqn:E.
  - destruct (Str.isspace c) eqn:Hc; simpl; rewrite ?Hc.
    + rewrite <- IH. simpl. by rewrite app_nil_r.
    + by rewrite <- IH.
  - simpl. destruct (Str.isspace c); by rewrite <- !IH.
Qed.

(** [split] does not see the whitespace at the ends. *)
Lemma split_strip s : Str.split (Str.strip s) = Str.split s.
Proof.
  unfold Str.split, Str.strip. by rewrite split_go_lstrip, split_go_rstrip.
Qed.

(** X15.  The description of the cleanup chain is always the text of the cell
    with the name taken off once, cut before the first "Abilities:" if there
    is one, with its whitespace collapsed: whether what is left begins with
    "is given out at" makes no difference to the result. *)
Theorem clean_description_cut badge_name full_info_text :
  clean_description badge_name full_info_text =
  Str.join " "
    (Str.split
       (hd EmptyString
          (Str.split1 (without_name badge_name full_info_text) "Abilities:"))).
Proof.
  unfold clean_description, without_name. cbv zeta.
  generalize
    (if Str.nonempty badge_name
        && Str.startswith full_info_text ("The " +:+ badge_name)
     then Str.strip
            (Str.replace full_info_text ("The " +:+ badge_name) EmptyString
               (Some 1))
     else if Str.nonempty badge_name
          then Str.strip
                 (Str.replace full_info_text badge_name EmptyString (Some 1))
          else full_info_text).
  intros d.
  destruct (Str.startswith d "is given out at"); [by rewrite split_strip|].
  destruct (Str.contains d "Abilities:") eqn:E; [by rewrite split_strip|].
  unfold Str.contains in E. unfold Str.split1.
  by destruct (Str.find d "Abilities:").
Qed.

Lemma read_escape b c s :
  read_escaped (Json.escape b c +:+ s) = Some (c, s).
Proof. by destruct b, c as [[] [] [] [] [] [] [] []]. Qed.

Lemma escape_not_quote b c s t :
  Json.escape b c +:+ s ≠ String Json.quote t.
Proof. by destruct b, c as [[] [] [] [] [] [] [] []]. Qed.

(** An escaped text ends at the first bare quote. *)
Lemma escape_all_split b s1 s2 t1 t2 :
  Json.escape_all b s1 +:+ String Json.quote t1
  = Json.escape_all b s2 +:+ String Json.quote t2 →
  s1 = s2 ∧ t1 = t2.
Proof.
  revert s2. induction s1 as [|c1 s1 IH]; intros [|c2 s2]; simpl.
  - rewrite !app_nil. by intros [= ->].
  - rewrite app_nil, app_assoc'. intros H. symmetry in H.
    by apply escape_not_quote in H.
  - rewrite app_nil, app_assoc'. intros H. by apply escape_not_quote in H.
  - rewrite !app_assoc'. intros H.
    assert (read_escaped
              (Json.escape b c1 +:+ Json.escape_all b s1 +:+ String Json.quote t1)
            = read_escaped
                (Json.escape b c2 +:+ Json.escape_all b s2 +:+ String Json.quote t2))
      as Hread by (by rewrite H).
    rewrite !read_escape in Hread. injection Hread as -> Hrest.
    destruct (IH _ Hrest) as [-> ->]. done.
Qed.

Lemma str_split b s1 s2 t1 t2 :
  Json.str b s1 +:+ t1 = Json.str b s2 +:+ t2 → s1 = s2 ∧ t1 = t2.
Proof.
  unfold Json.str. rewrite !app_cons, !app_assoc', !app_cons, !app_nil.
  intros [= H]. by apply escape_all_split in H.
Qed.

Lemma image_split b (u1 u2 : option string) t1 t2 :
  from_option (Json.str b) "null" u1 +:+ String "," t1
  = from_option (Json.str b) "null" u2 +:+ String "," t2 →
  u1 = u2 ∧ t1 = t2.
Proof.
  destruct u1 as [u1|], u2 as [u2|]; simpl.
  - intros [-> [= ->]]%str_split. done.
  - unfold Json.str. rewrite app_cons. discriminate.
  - unfold Json.str. rewrite app_cons. discriminate.
  - by intros [= ->].
Qed.

Lemma object_split b r1 r2 t1 t2 :
  Json.object b r1 +:+ t1 = Json.object b r2 +:+ t2 → r1 = r2 ∧ t1 = t2.
Proof.
  destruct r1 as [n1 u1 d1], r2 as [n2 u2 d2]. unfold Json.object. simpl.
  rewrite !app_assoc'. intros H.
  repeat apply String.app_inj in H. apply str_split in H as [-> H].
  change ("," +:+ ?x) with (String "," x) in H. injection H as H.
  repeat apply String.app_inj in H.
  apply image_split in H as [-> H].
  repeat apply String.app_inj in H. apply str_split in H as [-> H].
  repeat apply String.app_inj in H. done.
Qed.

Lemma objects_split b l1 l2 :
  String.concat ("," +:+ Json.newline +:+ "    ") (map (Json.object b) l1)
    +:+ Json.newline +:+ "]"
  = String.concat ("," +:+ Json.newline +:+ "    ") (map (Json.object b) l2)
    +:+ Json.newline +:+ "]" →
  l1 ≠ [] → l2 ≠ [] → l1 = l2.
Proof.
  revert l2. induction l1 as [|r1 l1 IH]; intros [|r2 l2] H Hne1 Hne2; try done.
  cbn [map String.concat] in H.
  destruct l1 as [|r1' l1], l2 as [|r2' l2]; cbn [map] in H.
  - apply object_split in H as [-> _]. done.
  - rewrite !app_assoc' in H. apply object_split in H as [_ H]. discriminate.
  - rewrite !app_assoc' in H. apply object_split in H as [_ H]. discriminate.
  - rewrite !app_assoc' in H. apply object_split in H as [-> H].
    repeat apply String.app_inj in H. f_equal. by apply IH.
Qed.

(** X16.  The dump of the badges, made with [ensure_ascii=False], loses
    nothing: two lists of records with the same dump are the same list. *)
Theorem dumps_injective l1 l2 :
  Json.dumps false l1 = Json.dumps false l2 → l1 = l2.
Proof.
  unfold Json.dumps. destruct l1 as [|r1 l1], l2 as [|r2 l2]; try done.
  intros H. repeat apply String.app_inj in H. by apply objects_split in H.
Qed.

Lemma dumps_injective_witness :
  [Item "R" None "d"] = [Item "R" None "d"].
Proof.
  exact (dumps_injective [Item "R" None "d"] [Item "R" None "d"] eq_refl).
Defined.

End Chain.
